(** * COPD (GOLD grade / ABE group) and asthma staging scripts

    A shallow embedding of the four scripts of the repository:

    - [CopdJs]        : [computeCOPD] of src/copd.js
    - [CopdPart000]   : [computeCOPD] of src/unnamed/part_000
                        (the variant with the treatment recommendation)
    - [AsthmaJs]      : [computeAsthmaStage] of src/asthma.js
    - [AsthmaPart001] : [computeAsthmaStage] of src/unnamed/part_001

    The embedding starts after the form has been read: an input record
    holds the values of the local constants that the first lines of each
    function obtain with [parseFloat], [parseInt] and [.value].  What the
    functions do to the page (the [alert], the assignments to
    [style.display] and [innerHTML], [scrollIntoView], the click listener)
    is explicit state passing over a [page]. *)

From Stdlib Require Import ZArith Bool List String Ascii Lia.
From Stdlib Require Import Floats.SpecFloat.
Import ListNotations.
Open Scope string_scope.
Open Scope Z_scope.
Open Scope list_scope.

(** ** The fragment of ECMAScript used by the scripts *)

Module JS.

(** A JavaScript Number is an IEEE 754 binary64 value. *)
Definition number : Type := spec_float.

Definition NaN : number := S754_nan.

(** Integer literals ([1], [30], [80], ...). *)
Definition num (z : Z) : number := binary_normalize 53 1024 z 0 false.

(** The literal [0.7]: the binary64 value nearest to 7/10,
    0x1.6666666666666p-1. *)
Definition lit_0_7 : number := S754_finite false 6305039478318694 (-53).

Definition isNaN (x : number) : bool :=
  match x with
  | S754_nan => true
  | _ => false
  end.

(** [x < y], [x >= y] and [x === y] on Numbers; each is false when an
    operand is NaN. *)
Definition less (x y : number) : bool := SFltb x y.
Definition greater_eq (x y : number) : bool := SFleb y x.
Definition strict_eq (x y : number) : bool := SFeqb x y.

(** [Math.max] of two Numbers: NaN when either is NaN, and +0 is larger
    than -0. *)
Definition max_number (x y : number) : number :=
  if isNaN x || isNaN y then NaN
  else match x, y with
       | S754_zero true, S754_zero false => y
       | _, _ => if SFltb x y then y else x
       end.

(** The values a property read of the three category maps can produce. *)
Inductive value : Type :=
| Undefined
| Number (n : number)
| Builtin (name : string).  (* the function or object Object.prototype[name] *)

Definition ToBoolean (v : value) : bool :=
  match v with
  | Undefined => false
  | Number n =>
      match n with
      | S754_zero _ | S754_nan => false
      | _ => true
      end
  | Builtin _ => true
  end.

(** [ToNumber]: a built-in function or the prototype object converts
    through its string form ("function ...", "[object Object]") to NaN. *)
Definition ToNumber (v : value) : number :=
  match v with
  | Undefined => NaN
  | Number n => n
  | Builtin _ => NaN
  end.

(** [a || b] *)
Definition logical_or (a b : value) : value := if ToBoolean a then a else b.

(** [Math.max(a, b)] *)
Definition Math_max (a b : value) : number :=
  max_number (ToNumber a) (ToNumber b).

(** An object literal [{ k1: n1, ... }]: its own properties, in order. *)
Definition object : Type := list (string * number).

(** The properties every object literal inherits from [Object.prototype]
    in a browser. *)
Definition Object_prototype : list string :=
  [ "constructor"; "hasOwnProperty"; "isPrototypeOf"; "propertyIsEnumerable";
    "toLocaleString"; "toString"; "valueOf";
    "__defineGetter__"; "__defineSetter__";
    "__lookupGetter__"; "__lookupSetter__"; "__proto__" ].

Fixpoint own (o : object) (key : string) : option number :=
  match o with
  | [] => None
  | (k, n) :: o' => if String.eqb k key then Some n else own o' key
  end.

Definition inherited (key : string) : bool :=
  existsb (String.eqb key) Object_prototype.

(** [o[key]]: an own property first, then the prototype chain. *)
Definition get (o : object) (key : string) : value :=
  match own o key with
  | Some n => Number n
  | None => if inherited key then Builtin key else Undefined
  end.

(** Truthiness of a string: the empty string is falsy. *)
Definition truthy (s : string) : bool :=
  match s with
  | EmptyString => false
  | _ => true
  end.

(** [a.join(sep)] on an array of strings. *)
Definition join (sep : string) (a : list string) : string := String.concat sep a.

(** The text assembled in [resultHtml].  Converting a Number to text is
    left symbolic: [ToString n] stands for the substitution of [n] in a
    template literal, [ToFixed n d] for [n.toFixed(d)]. *)
Inductive piece : Type :=
| Lit (s : string)
| ToString (n : number)
| ToFixed (n : number) (digits : nat).

Definition html : Type := list piece.

End JS.

Import JS.

(** ** The page *)

Inductive handler : Type :=
| downloadCopdReportPDF
| downloadAsthmaReportPDF.

(** The part of the browser state a staging function touches: the form
    element, the result container, the click listeners of the download
    button inside the container, and the messages shown with [alert]. *)
Record page : Type := mkPage {
  form_display : string;        (* form.style.display *)
  result_innerHTML : html;      (* resultDiv.innerHTML *)
  result_display : string;      (* resultDiv.style.display *)
  result_scrolled : bool;       (* resultDiv.scrollIntoView was called *)
  download_listeners : list handler;
  alerts : list string
}.

Definition alert (msg : string) (p : page) : page :=
  mkPage (form_display p) (result_innerHTML p) (result_display p)
         (result_scrolled p) (download_listeners p) (alerts p ++ [msg]).

(** Hide the form, replace the content of the result container (the old
    subtree goes away with its listeners), show it and scroll to it. *)
Definition show_result (h : html) (p : page) : page :=
  mkPage "none" h "block" true [] (alerts p).

Definition add_click_listener (f : handler) (p : page) : page :=
  mkPage (form_display p) (result_innerHTML p) (result_display p)
         (result_scrolled p) (download_listeners p ++ [f]) (alerts p).

(** What is displayed: everything but the [alert] log. *)
Definition displayed (p : page) : string * html * string * bool * list handler :=
  (form_display p, result_innerHTML p, result_display p, result_scrolled p,
   download_listeners p).

Definition dq : string := String "034"%char EmptyString.

(** ** COPD staging *)

(** The form values read by the first lines of [computeCOPD] (the same in
    both variants). *)
Module CopdForm.

Record radio : Type := mkRadio {
  checked : bool;
  value : number            (* parseInt(radio.value, 10) *)
}.

Record input : Type := mkInput {
  ratio : number;             (* parseFloat of the field 'ratio' *)
  fev1percent : number;       (* parseFloat of the field 'fev1percent' *)
  exacerbations : number;     (* parseInt of the field 'exacerbations' *)
  hospitalizations : number;  (* parseInt of the field 'hospitalizations' *)
  mmrcInputs : list radio;    (* the radios named 'mmrc' *)
  inhalers : list string;     (* values of the checked 'inhalers' boxes *)
  frequency : string          (* value of the field 'copdFrequency' *)
}.

(** [let mmrc = null; mmrcInputs.forEach(radio => { if (radio.checked)
    mmrc = parseInt(radio.value, 10); })], with [None] for [null]. *)
Definition mmrc_of (radios : list radio) : option number :=
  fold_left (fun mmrc r => if checked r then Some (value r) else mmrc)
            radios None.

(** The guard of the validation, negated: none of the four numbers is NaN
    and an mMRC radio is checked. *)
Definition filled (i : input) : bool :=
  negb (isNaN (ratio i) || isNaN (fev1percent i) || isNaN (exacerbations i)
        || isNaN (hospitalizations i))
  && existsb checked (mmrcInputs i).

End CopdForm.

Module CopdJs.
Import CopdForm.

(** The local variables of [computeCOPD] when it reaches its end. *)
Record result : Type := mkResult {
  goldGrade : string;
  goldDescription : string;
  abeGroup : string;
  abeDescription : string;
  resultHtml : html
}.

Definition computeCOPD (i : input) (p : page) : option result * page :=
  let ratio := ratio i in
  let fev1percent := fev1percent i in
  let exacerbations := exacerbations i in
  let hospitalizations := hospitalizations i in
  let mmrc := mmrc_of (mmrcInputs i) in
  let inhalers := inhalers i in
  let frequency := frequency i in
  (* lines 25-28: the validation; past it no number is NaN and mmrc is
     not null *)
  match isNaN ratio || isNaN fev1percent || isNaN exacerbations
        || isNaN hospitalizations, mmrc with
  | false, Some mmrc =>
    (* lines 31-45 *)
    let '(goldGrade, goldDescription) :=
      if greater_eq fev1percent (num 80) then
        ("GOLD 1 (Mild)",
         "Airflow obstruction is mild with FEV₁ ≥80% predicted.")
      else if greater_eq fev1percent (num 50) then
        ("GOLD 2 (Moderate)",
         "Airflow obstruction is moderate with FEV₁ between 50% and 79% predicted.")
      else if greater_eq fev1percent (num 30) then
        ("GOLD 3 (Severe)",
         "Airflow obstruction is severe with FEV₁ between 30% and 49% predicted.")
      else
        ("GOLD 4 (Very Severe)",
         "Airflow obstruction is very severe with FEV₁ <30% predicted.") in
    (* lines 48-62 *)
    let '(abeGroup, abeDescription) :=
      if greater_eq hospitalizations (num 1) || greater_eq exacerbations (num 2) then
        ("Group E",
         "High risk for exacerbations: two or more moderate exacerbations or at least one hospitalization in the past year.")
      else if greater_eq mmrc (num 2) then
        ("Group B",
         "Higher symptom burden: mMRC score ≥2 with 0–1 moderate exacerbations and no hospitalization in the past year.")
      else
        ("Group A",
         "Lower symptom burden: mMRC score 0–1 with 0–1 moderate exacerbations and no hospitalization in the past year.") in
    (* lines 65 and following: the report *)
    let resultHtml := [Lit "<h2>Results</h2>"] in
    let resultHtml := resultHtml ++
      (if less ratio lit_0_7 then
         [Lit "<p><strong>Diagnostic Criterion:</strong> Your FEV<sub>1</sub>/FVC ratio is ";
          ToFixed ratio 2;
          Lit ", which is below the 0.70 threshold used to confirm airflow obstruction in COPD.</p>"]
       else
         [Lit "<p><strong>Diagnostic Criterion:</strong> Your FEV<sub>1</sub>/FVC ratio is ";
          ToFixed ratio 2;
          Lit ". Values ≥0.70 are generally considered normal; consult a healthcare professional for interpretation.</p>"]) in
    let resultHtml := resultHtml ++
      [Lit "<p><strong>GOLD Grade:</strong> "; Lit goldGrade; Lit "</p>"] in
    let resultHtml := resultHtml ++ [Lit "<p>"; Lit goldDescription; Lit "</p>"] in
    let resultHtml := resultHtml ++
      [Lit "<p><strong>ABE Group:</strong> "; Lit abeGroup; Lit "</p>"] in
    let resultHtml := resultHtml ++ [Lit "<p>"; Lit abeDescription; Lit "</p>"] in
    let resultHtml := resultHtml ++
      [Lit "<p><strong>FEV<sub>1</sub>% provided:</strong> "; ToString fev1percent;
       Lit "%</p>"] in
    let resultHtml := resultHtml ++
      [Lit "<p><strong>mMRC score:</strong> "; ToString mmrc; Lit "</p>"] in
    let resultHtml := resultHtml ++
      [Lit "<p><strong>Number of moderate exacerbations:</strong> ";
       ToString exacerbations; Lit "</p>"] in
    let resultHtml := resultHtml ++
      [Lit "<p><strong>Number of hospitalizations:</strong> ";
       ToString hospitalizations; Lit "</p>"] in
    let resultHtml := resultHtml ++
      [Lit "<p><strong>Inhalers used:</strong> ";
       Lit (if (0 <? List.length inhalers)%nat then join ", " inhalers
            else "None selected");
       Lit "</p>"] in
    let resultHtml := resultHtml ++
      (if truthy frequency then
         [Lit "<p><strong>Inhaler use frequency:</strong> "; Lit frequency;
          Lit " times per week</p>"]
       else []) in
    (Some (mkResult goldGrade goldDescription abeGroup abeDescription resultHtml),
     show_result resultHtml p)
  | _, _ => (None, alert "Please fill in all required fields." p)
  end.

End CopdJs.

Module CopdPart000.
Import CopdForm.

(** The local variables of [computeCOPD] when it reaches its end. *)
Record result : Type := mkResult {
  goldGrade : string;
  goldDescription : string;
  abeGroup : string;
  abeDescription : string;
  copdRecommendation : string;
  resultHtml : html
}.

Definition computeCOPD (i : input) (p : page) : option result * page :=
  let ratio := ratio i in
  let fev1percent := fev1percent i in
  let exacerbations := exacerbations i in
  let hospitalizations := hospitalizations i in
  let mmrc := mmrc_of (mmrcInputs i) in
  let inhalers := inhalers i in
  let frequency := frequency i in
  (* lines 25-28: the validation; past it no number is NaN and mmrc is
     not null *)
  match isNaN ratio || isNaN fev1percent || isNaN exacerbations
        || isNaN hospitalizations, mmrc with
  | false, Some mmrc =>
    (* lines 31-45 *)
    let '(goldGrade, goldDescription) :=
      if greater_eq fev1percent (num 80) then
        ("GOLD 1 (Mild)",
         "Airflow obstruction is mild with FEV₁ ≥80% predicted.")
      else if greater_eq fev1percent (num 50) then
        ("GOLD 2 (Moderate)",
         "Airflow obstruction is moderate with FEV₁ between 50% and 79% predicted.")
      else if greater_eq fev1percent (num 30) then
        ("GOLD 3 (Severe)",
         "Airflow obstruction is severe with FEV₁ between 30% and 49% predicted.")
      else
        ("GOLD 4 (Very Severe)",
         "Airflow obstruction is very severe with FEV₁ <30% predicted.") in
    (* lines 48-62 *)
    let '(abeGroup, abeDescription) :=
      if greater_eq hospitalizations (num 1) || greater_eq exacerbations (num 2) then
        ("Group E",
         "High risk for exacerbations: two or more moderate exacerbations or at least one hospitalization in the past year.")
      else if greater_eq mmrc (num 2) then
        ("Group B",
         "Higher symptom burden: mMRC score ≥2 with 0–1 moderate exacerbations and no hospitalization in the past year.")
      else
        ("Group A",
         "Lower symptom burden: mMRC score 0–1 with 0–1 moderate exacerbations and no hospitalization in the past year.") in
    (* lines 65 and following: the report *)
    let resultHtml := [Lit "<h2>Results</h2>"] in
    let resultHtml := resultHtml ++
      (if less ratio lit_0_7 then
         [Lit "<p><strong>Diagnostic Criterion:</strong> Your FEV<sub>1</sub>/FVC ratio is ";
          ToFixed ratio 2;
          Lit ", which is below the 0.70 threshold used to confirm airflow obstruction in COPD.</p>"]
       else
         [Lit "<p><strong>Diagnostic Criterion:</strong> Your FEV<sub>1</sub>/FVC ratio is ";
          ToFixed ratio 2;
          Lit ". Values ≥0.70 are generally considered normal; consult a healthcare professional for interpretation.</p>"]) in
    let resultHtml := resultHtml ++
      [Lit "<p><strong>GOLD Grade:</strong> "; Lit goldGrade; Lit "</p>"] in
    let resultHtml := resultHtml ++ [Lit "<p>"; Lit goldDescription; Lit "</p>"] in
    let resultHtml := resultHtml ++
      [Lit "<p><strong>ABE Group:</strong> "; Lit abeGroup; Lit "</p>"] in
    let resultHtml := resultHtml ++ [Lit "<p>"; Lit abeDescription; Lit "</p>"] in
    (* lines 83-108 *)
    let copdRecommendation := "" in
    let copdRecommendation :=
      if String.eqb abeGroup "Group A" then
        (copdRecommendation ++
         "<p><strong>GOLD 2025 recommended treatment:</strong></p><ul>" ++
         "<li>Offer bronchodilator therapy to relieve breathlessness; this may be a short‑acting or long‑acting bronchodilator. A long‑acting bronchodilator (LABA or LAMA) is preferred if available and affordable except in patients with very occasional breathlessness.</li>" ++
         "<li>Continue treatment if benefit is documented; reassess regularly.</li>" ++
         "<li>Rescue short‑acting bronchodilators should be prescribed to all patients for immediate symptom relief【525439884052066†L1210-L1211】.</li>" ++
         "</ul>")%string
      else if String.eqb abeGroup "Group B" then
        (copdRecommendation ++
         "<p><strong>GOLD 2025 recommended treatment:</strong></p><ul>" ++
         "<li>Initiate therapy with a combination of a long‑acting beta agonist and a long‑acting muscarinic antagonist (LABA+LAMA); clinical trials demonstrate that LABA+LAMA is superior to LAMA alone for symptom control.</li>" ++
         "<li>If LABA+LAMA is not appropriate, there is no evidence to recommend one class of long‑acting bronchodilator over another; select either LABA or LAMA based on the patient’s perception of symptom relief.</li>" ++
         "<li>Investigate and manage comorbidities that may contribute to symptoms.</li>" ++
         "<li>Rescue short‑acting bronchodilators should be prescribed to all patients for immediate symptom relief【525439884052066†L1210-L1211】.</li>" ++
         "</ul>")%string
      else if String.eqb abeGroup "Group E" then
        (copdRecommendation ++
         "<p><strong>GOLD 2025 recommended treatment:</strong></p><ul>" ++
         "<li>A dual bronchodilator combination (LABA+LAMA) is the preferred initial therapy.</li>" ++
         "<li>Do not initiate LABA+ICS without LAMA; if an inhaled corticosteroid is indicated (e.g., blood eosinophil count ≥300 cells/µL or concomitant asthma), use triple therapy with LABA+LAMA+ICS, which is superior to LABA+ICS.</li>" ++
         "<li>Consider triple therapy at diagnosis when eosinophil count is high (≥300 cells/µL).</li>" ++
         "<li>Patients with COPD and co‑existing asthma should be treated like asthma patients, making inhaled corticosteroids mandatory.</li>" ++
         "<li>Rescue short‑acting bronchodilators should be prescribed to all patients for immediate symptom relief【525439884052066†L1210-L1211】.</li>" ++
         "</ul>")%string
      else copdRecommendation in
    let resultHtml := resultHtml ++
      [Lit "<p><strong>FEV<sub>1</sub>% provided:</strong> "; ToString fev1percent;
       Lit "%</p>"] in
    let resultHtml := resultHtml ++
      [Lit "<p><strong>mMRC score:</strong> "; ToString mmrc; Lit "</p>"] in
    let resultHtml := resultHtml ++
      [Lit "<p><strong>Number of moderate exacerbations:</strong> ";
       ToString exacerbations; Lit "</p>"] in
    let resultHtml := resultHtml ++
      [Lit "<p><strong>Number of hospitalizations:</strong> ";
       ToString hospitalizations; Lit "</p>"] in
    let resultHtml := resultHtml ++
      [Lit "<p><strong>Inhalers used:</strong> ";
       Lit (if (0 <? List.length inhalers)%nat then join ", " inhalers
            else "None selected");
       Lit "</p>"] in
    let resultHtml := resultHtml ++
      (if truthy frequency then
         [Lit "<p><strong>Inhaler use frequency:</strong> "; Lit frequency;
          Lit " times per week</p>"]
       else []) in
    let resultHtml := resultHtml ++
      (if truthy copdRecommendation then [Lit copdRecommendation] else []) in
    let resultHtml := resultHtml ++
      [Lit ("<button type=" ++ dq ++ "button" ++ dq ++ " id=" ++ dq
            ++ "downloadCopdPdfBtn" ++ dq ++ ">Download PDF Report</button>")%string] in
    (Some (mkResult goldGrade goldDescription abeGroup abeDescription
                    copdRecommendation resultHtml),
     (* the button is in the new content, so getElementById finds it *)
     add_click_listener downloadCopdReportPDF (show_result resultHtml p))
  | _, _ => (None, alert "Please fill in all required fields." p)
  end.

End CopdPart000.

(** ** Asthma staging *)

Module AsthmaJs.

Definition inhalerList : list string :=
  ["SABA"; "LABA"; "ICS"; "ICS_LABA"; "LAMA"; "other"].

Record checkbox : Type := mkCheckbox {
  checked : bool;
  value : string
}.

(** An entry of [inhalerData]. *)
Record item : Type := mkItem {
  name : string;
  freq : string
}.

Record input : Type := mkInput {
  fev1 : number;                        (* parseFloat of the field 'fev1' *)
  daytime : string;                     (* value of the field 'daytime' *)
  nighttime : string;                   (* value of the field 'nighttime' *)
  activity : string;                    (* value of the field 'activity' *)
  inh : string -> option checkbox;      (* getElementById('inh_' + id) *)
  freq_value : string -> option string  (* getElementById('freq_' + id), its value *)
}.

(** The local variables of [computeAsthmaStage] when it reaches its end. *)
Record result : Type := mkResult {
  severity : number;
  stageName : string;
  stageDescription : string;
  resultHtml : html
}.

Definition computeAsthmaStage (i : input) (p : page) : result * page :=
  let fev1 := fev1 i in
  let daytime := daytime i in
  let nighttime := nighttime i in
  let activity := activity i in
  let inhalerData :=
    flat_map
      (fun id =>
         match inh i id with
         | Some cb =>
             if checked cb then
               [mkItem (value cb)
                       (match freq_value i id with
                        | Some v => if truthy v then v else ""
                        | None => ""
                        end)]
             else []
         | None => []
         end)
      inhalerList in
  let daytimeMap : object :=
    [("<=2", num 1); ("3-6", num 2); ("daily", num 3); ("throughout", num 4)] in
  let nighttimeMap : object :=
    [("<=2", num 1); ("3-4", num 2); ("5+", num 3); ("often", num 4)] in
  let activityMap : object :=
    [("none", num 1); ("minor", num 2); ("some", num 3); ("extreme", num 4)] in
  (* the severity: starts at 1, raised by FEV1 and by the three maps *)
  let severity := num 1 in
  let severity :=
    if negb (isNaN fev1) then
      if less fev1 (num 60) then Math_max (Number severity) (Number (num 4))
      else if less fev1 (num 80) then Math_max (Number severity) (Number (num 3))
      else severity
    else severity in
  let severity :=
    Math_max (Number severity) (logical_or (get daytimeMap daytime) (Number (num 1))) in
  let severity :=
    Math_max (Number severity) (logical_or (get nighttimeMap nighttime) (Number (num 1))) in
  let severity :=
    Math_max (Number severity) (logical_or (get activityMap activity) (Number (num 1))) in
  (* the switch: cases 1 to 4, then default *)
  let '(stageName, stageDescription) :=
    if strict_eq severity (num 1) then
      ("Intermittent (Mild) Asthma",
       "Symptoms occur infrequently (≤2 days/week), with minimal nighttime waking (≤2 times/month) and no limitation of activities. Lung function (FEV₁) is typically ≥80% predicted.")
    else if strict_eq severity (num 2) then
      ("Mild Persistent Asthma",
       "Symptoms are present on 3–6 days per week or 3–4 nights per month. There may be minor limitation of activity and FEV₁ is ≥80% predicted.")
    else if strict_eq severity (num 3) then
      ("Moderate Persistent Asthma",
       "Symptoms occur daily and nighttime awakenings ≥5 times per month. There is some limitation of activities and lung function is between 60–80% predicted.")
    else if strict_eq severity (num 4) then
      ("Severe Persistent Asthma",
       "Symptoms are present throughout the day, nighttime symptoms occur often, activities are extremely limited, and lung function is ≤60% predicted.")
    else
      ("Intermittent (Mild) Asthma",
       "Symptoms occur infrequently with minimal impact on daily activities.") in
  let resultHtml := [Lit "<h2>Results</h2>"] in
  let resultHtml := resultHtml ++
    [Lit "<p><strong>Estimated Asthma Severity:</strong> "; Lit stageName; Lit "</p>"] in
  let resultHtml := resultHtml ++ [Lit "<p>"; Lit stageDescription; Lit "</p>"] in
  let resultHtml := resultHtml ++
    (if negb (isNaN fev1) then
       [Lit "<p><strong>FEV<sub>1</sub>% provided:</strong> "; ToString fev1; Lit "%</p>"]
     else []) in
  let resultHtml := resultHtml ++
    (if (0 <? List.length inhalerData)%nat then
       [Lit "<p><strong>Inhalers used:</strong></p><ul>"] ++
       flat_map
         (fun item =>
            let freqText :=
              if truthy (freq item) then (freq item ++ " times per week")%string
              else "frequency not specified" in
            [Lit "<li>"; Lit (name item); Lit ": "; Lit freqText; Lit "</li>"])
         inhalerData ++
       [Lit "</ul>"]
     else
       [Lit "<p><strong>Inhalers used:</strong> None selected</p>"]) in
  let resultHtml := resultHtml ++
    [Lit ("<button type=" ++ dq ++ "button" ++ dq ++ " id=" ++ dq
          ++ "downloadPdfBtn" ++ dq ++ ">Download PDF Report</button>")%string] in
  (mkResult severity stageName stageDescription resultHtml,
   (* the button is in the new content, so getElementById finds it *)
   add_click_listener downloadAsthmaReportPDF (show_result resultHtml p)).

End AsthmaJs.

Module AsthmaPart001.

Record input : Type := mkInput {
  fev1 : number;            (* parseFloat of the field 'fev1' *)
  daytime : string;         (* value of the field 'daytime' *)
  nighttime : string;       (* value of the field 'nighttime' *)
  activity : string;        (* value of the field 'activity' *)
  inhalers : list string;   (* values of the checked 'inhalers' boxes *)
  frequency : string        (* value of the field 'frequency' *)
}.

(** The local variables of [computeAsthmaStage] when it reaches its end. *)
Record result : Type := mkResult {
  severity : number;
  stageName : string;
  stageDescription : string;
  resultHtml : html
}.

Definition computeAsthmaStage (i : input) (p : page) : result * page :=
  let fev1 := fev1 i in
  let daytime := daytime i in
  let nighttime := nighttime i in
  let activity := activity i in
  let inhalers := inhalers i in
  let frequency := frequency i in
  let daytimeMap : object :=
    [("<=2", num 1); ("3-6", num 2); ("daily", num 3); ("throughout", num 4)] in
  let nighttimeMap : object :=
    [("<=2", num 1); ("3-4", num 2); ("5+", num 3); ("often", num 4)] in
  let activityMap : object :=
    [("none", num 1); ("minor", num 2); ("some", num 3); ("extreme", num 4)] in
  (* the severity: starts at 1, raised by FEV1 and by the three maps *)
  let severity := num 1 in
  let severity :=
    if negb (isNaN fev1) then
      if less fev1 (num 60) then Math_max (Number severity) (Number (num 4))
      else if less fev1 (num 80) then Math_max (Number severity) (Number (num 3))
      else severity
    else severity in
  let severity :=
    Math_max (Number severity) (logical_or (get daytimeMap daytime) (Number (num 1))) in
  let severity :=
    Math_max (Number severity) (logical_or (get nighttimeMap nighttime) (Number (num 1))) in
  let severity :=
    Math_max (Number severity) (logical_or (get activityMap activity) (Number (num 1))) in
  (* the switch: cases 1 to 4, then default *)
  let '(stageName, stageDescription) :=
    if strict_eq severity (num 1) then
      ("Intermittent (Mild) Asthma",
       "Symptoms occur infrequently (≤2 days/week), with minimal nighttime waking (≤2 times/month) and no limitation of activities. Lung function (FEV₁) is typically ≥80% predicted.")
    else if strict_eq severity (num 2) then
      ("Mild Persistent Asthma",
       "Symptoms are present on 3–6 days per week or 3–4 nights per month. There may be minor limitation of activity and FEV₁ is ≥80% predicted.")
    else if strict_eq severity (num 3) then
      ("Moderate Persistent Asthma",
       "Symptoms occur daily and nighttime awakenings ≥5 times per month. There is some limitation of activities and lung function is between 60–80% predicted.")
    else if strict_eq severity (num 4) then
      ("Severe Persistent Asthma",
       "Symptoms are present throughout the day, nighttime symptoms occur often, activities are extremely limited, and lung function is ≤60% predicted.")
    else
      ("Intermittent (Mild) Asthma",
       "Symptoms occur infrequently with minimal impact on daily activities.") in
  let resultHtml := [Lit "<h2>Results</h2>"] in
  let resultHtml := resultHtml ++
    [Lit "<p><strong>Estimated Asthma Severity:</strong> "; Lit stageName; Lit "</p>"] in
  let resultHtml := resultHtml ++ [Lit "<p>"; Lit stageDescription; Lit "</p>"] in
  let resultHtml := resultHtml ++
    (if negb (isNaN fev1) then
       [Lit "<p><strong>FEV<sub>1</sub>% provided:</strong> "; ToString fev1; Lit "%</p>"]
     else []) in
  let resultHtml := resultHtml ++
    [Lit "<p><strong>Inhalers used:</strong> ";
     Lit (if (0 <? List.length inhalers)%nat then join ", " inhalers
          else "None selected");
     Lit "</p>"] in
  let resultHtml := resultHtml ++
    (if truthy frequency then
       [Lit "<p><strong>Inhaler use frequency:</strong> "; Lit frequency;
        Lit " times per week</p>"]
     else []) in
  (mkResult severity stageName stageDescription resultHtml,
   show_result resultHtml p).

End AsthmaPart001.

(** ** The steps of the asthma questionnaire *)

(** [showStep], [nextStep], [prevStep] and [validateCurrentStep] have the
    same text in src/asthma.js and in src/unnamed/part_001; they are
    embedded once.  The step counter [currentStep] only moves by one from
    1, so it is an integer. *)
Module Wizard.

(** An [input] or [select] element inside a step. *)
Record field : Type := mkField {
  required : bool;          (* hasAttribute('required') *)
  value : string
}.

(** An element of class 'step'. *)
Record step : Type := mkStep {
  active : bool;            (* classList contains 'active' *)
  fields : list field       (* querySelectorAll('input, select') *)
}.

Record state : Type := mkState {
  currentStep : Z;
  steps : list step;        (* document.querySelectorAll('.step') *)
  prevBtn_disabled : bool;
  nextBtn_textContent : string;
  doc : page
}.

Definition totalSteps : Z := 5.

(** [steps.forEach((step, index) =>
      step.classList.toggle('active', index === currentStep - 1))],
    from [index] on. *)
Fixpoint toggle_from (index currentStep : Z) (steps : list step) : list step :=
  match steps with
  | [] => []
  | step :: rest =>
      mkStep (index =? currentStep - 1) (fields step)
      :: toggle_from (index + 1) currentStep rest
  end.

Definition showStep (s : state) : state :=
  mkState (currentStep s)
          (toggle_from 0 (currentStep s) (steps s))
          (currentStep s =? 1)
          (if currentStep s =? totalSteps then "Submit" else "Next")
          (doc s).

(** The [for] loop of [validateCurrentStep]: the first required element
    with an empty value raises the alert and ends the function. *)
Fixpoint check_inputs (inputs : list field) (p : page) : bool * page :=
  match inputs with
  | [] => (true, p)
  | input :: rest =>
      if required input && negb (truthy (value input)) then
        (false, alert "Please complete the required field before continuing." p)
      else check_inputs rest p
  end.

Definition validateCurrentStep (s : state) : bool * state :=
  (* document.querySelector('.step.active'): the first such element *)
  match find active (steps s) with
  | None => (true, s)
  | Some stepElement =>
      let '(ok, p) := check_inputs (fields stepElement) (doc s) in
      (ok, mkState (currentStep s) (steps s) (prevBtn_disabled s)
                   (nextBtn_textContent s) p)
  end.

Section Submit.

(** What [computeAsthmaStage] of the same file does to the page, given the
    values the form holds. *)
Variable computeAsthmaStage : page -> page.

Definition nextStep (s : state) : state :=
  let '(ok, s) := validateCurrentStep s in
  if negb ok then s
  else if currentStep s =? totalSteps then
    mkState (currentStep s) (steps s) (prevBtn_disabled s)
            (nextBtn_textContent s) (computeAsthmaStage (doc s))
  else
    showStep (mkState (currentStep s + 1) (steps s) (prevBtn_disabled s)
                      (nextBtn_textContent s) (doc s)).

End Submit.

Definition prevStep (s : state) : state :=
  if 1 <? currentStep s then
    showStep (mkState (currentStep s - 1) (steps s) (prevBtn_disabled s)
                      (nextBtn_textContent s) (doc s))
  else s.

End Wizard.

(** [nextStep] of each file, the form holding the values [form]. *)
Definition asthma_js_nextStep (form : AsthmaJs.input)
  : Wizard.state -> Wizard.state :=
  Wizard.nextStep (fun p => snd (AsthmaJs.computeAsthmaStage form p)).

Definition part001_nextStep (form : AsthmaPart001.input)
  : Wizard.state -> Wizard.state :=
  Wizard.nextStep (fun p => snd (AsthmaPart001.computeAsthmaStage form p)).

(** * Definitions for the statements *)

(** ** COPD *)

(** The grade and group names, written as in the source (a no-break space
    follows "GOLD" and "Group"). *)
Definition GOLD_1 : string := "GOLD 1 (Mild)".
Definition GOLD_2 : string := "GOLD 2 (Moderate)".
Definition GOLD_3 : string := "GOLD 3 (Severe)".
Definition GOLD_4 : string := "GOLD 4 (Very Severe)".
Definition Group_A : string := "Group A".
Definition Group_B : string := "Group B".
Definition Group_E : string := "Group E".

Section CopdStatements.
Import CopdForm.

(** Both variants of [computeCOPD] reach their end on [i] with GOLD grade
    [g], respectively with ABE group [a]. *)
Definition grades (i : input) (p : page) (g : string) : Prop :=
  (exists r p', CopdJs.computeCOPD i p = (Some r, p') /\ CopdJs.goldGrade r = g)
  /\ (exists r p', CopdPart000.computeCOPD i p = (Some r, p')
                   /\ CopdPart000.goldGrade r = g).

Definition groups (i : input) (p : page) (a : string) : Prop :=
  (exists r p', CopdJs.computeCOPD i p = (Some r, p') /\ CopdJs.abeGroup r = a)
  /\ (exists r p', CopdPart000.computeCOPD i p = (Some r, p')
                   /\ CopdPart000.abeGroup r = a).

(** The two conditionals of [computeCOPD], by name. *)
Definition gold_name (fev1percent : number) : string :=
  if greater_eq fev1percent (num 80) then GOLD_1
  else if greater_eq fev1percent (num 50) then GOLD_2
  else if greater_eq fev1percent (num 30) then GOLD_3
  else GOLD_4.

Definition abe_name (hospitalizations exacerbations mmrc : number) : string :=
  if greater_eq hospitalizations (num 1) || greater_eq exacerbations (num 2)
  then Group_E
  else if greater_eq mmrc (num 2) then Group_B
  else Group_A.

(** The message of the validation. *)
Definition required_fields_message : string :=
  "Please fill in all required fields.".

(** The diagnostic-criterion paragraph of [computeCOPD], by name. *)
Definition diagnostic_criterion (ratio : number) : html :=
  if less ratio lit_0_7 then
    [Lit "<p><strong>Diagnostic Criterion:</strong> Your FEV<sub>1</sub>/FVC ratio is ";
     ToFixed ratio 2;
     Lit ", which is below the 0.70 threshold used to confirm airflow obstruction in COPD.</p>"]
  else
    [Lit "<p><strong>Diagnostic Criterion:</strong> Your FEV<sub>1</sub>/FVC ratio is ";
     ToFixed ratio 2;
     Lit ". Values ≥0.70 are generally considered normal; consult a healthcare professional for interpretation.</p>"].

(** Two inputs that differ at most in [ratio]. *)
Definition agree_except_ratio (i1 i2 : input) : Prop :=
  fev1percent i1 = fev1percent i2
  /\ exacerbations i1 = exacerbations i2
  /\ hospitalizations i1 = hospitalizations i2
  /\ mmrcInputs i1 = mmrcInputs i2
  /\ inhalers i1 = inhalers i2
  /\ frequency i1 = frequency i2.

(** The three paragraphs of the recommendation in src/unnamed/part_000. *)
Definition recommendation_A : string :=
  ("<p><strong>GOLD 2025 recommended treatment:</strong></p><ul>" ++
   "<li>Offer bronchodilator therapy to relieve breathlessness; this may be a short‑acting or long‑acting bronchodilator. A long‑acting bronchodilator (LABA or LAMA) is preferred if available and affordable except in patients with very occasional breathlessness.</li>" ++
   "<li>Continue treatment if benefit is documented; reassess regularly.</li>" ++
   "<li>Rescue short‑acting bronchodilators should be prescribed to all patients for immediate symptom relief【525439884052066†L1210-L1211】.</li>" ++
   "</ul>")%string.

Definition recommendation_B : string :=
  ("<p><strong>GOLD 2025 recommended treatment:</strong></p><ul>" ++
   "<li>Initiate therapy with a combination of a long‑acting beta agonist and a long‑acting muscarinic antagonist (LABA+LAMA); clinical trials demonstrate that LABA+LAMA is superior to LAMA alone for symptom control.</li>" ++
   "<li>If LABA+LAMA is not appropriate, there is no evidence to recommend one class of long‑acting bronchodilator over another; select either LABA or LAMA based on the patient’s perception of symptom relief.</li>" ++
   "<li>Investigate and manage comorbidities that may contribute to symptoms.</li>" ++
   "<li>Rescue short‑acting bronchodilators should be prescribed to all patients for immediate symptom relief【525439884052066†L1210-L1211】.</li>" ++
   "</ul>")%string.

Definition recommendation_E : string :=
  ("<p><strong>GOLD 2025 recommended treatment:</strong></p><ul>" ++
   "<li>A dual bronchodilator combination (LABA+LAMA) is the preferred initial therapy.</li>" ++
   "<li>Do not initiate LABA+ICS without LAMA; if an inhaled corticosteroid is indicated (e.g., blood eosinophil count ≥300 cells/µL or concomitant asthma), use triple therapy with LABA+LAMA+ICS, which is superior to LABA+ICS.</li>" ++
   "<li>Consider triple therapy at diagnosis when eosinophil count is high (≥300 cells/µL).</li>" ++
   "<li>Patients with COPD and co‑existing asthma should be treated like asthma patients, making inhaled corticosteroids mandatory.</li>" ++
   "<li>Rescue short‑acting bronchodilators should be prescribed to all patients for immediate symptom relief【525439884052066†L1210-L1211】.</li>" ++
   "</ul>")%string.

(** A report includes a recommendation when one of the three paragraphs is
    one of its pieces. *)
Definition includes_recommendation (h : html) : Prop :=
  exists para,
    In para [recommendation_A; recommendation_B; recommendation_E]
    /\ In (Lit para) h.

(** Some literal piece of the report contains [s]. *)
Definition mentions (s : string) (h : html) : bool :=
  existsb (fun pc => match pc with
                     | Lit t => match index 0 s t with
                                | Some _ => true
                                | None => false
                                end
                     | _ => false
                     end) h.

Definition has_piece (s : string) (h : html) : bool :=
  existsb (fun pc => match pc with
                     | Lit t => String.eqb s t
                     | _ => false
                     end) h.

(** The selection of the paragraph in src/unnamed/part_000, by name. *)
Definition recommendation_for (abeGroup : string) : string :=
  if String.eqb abeGroup Group_A then recommendation_A
  else if String.eqb abeGroup Group_B then recommendation_B
  else if String.eqb abeGroup Group_E then recommendation_E
  else "".

End CopdStatements.

(** ** Asthma *)

Section AsthmaStatements.

(** The three maps of [computeAsthmaStage], by name. *)
Definition daytimeMap : object :=
  [("<=2", num 1); ("3-6", num 2); ("daily", num 3); ("throughout", num 4)].
Definition nighttimeMap : object :=
  [("<=2", num 1); ("3-4", num 2); ("5+", num 3); ("often", num 4)].
Definition activityMap : object :=
  [("none", num 1); ("minor", num 2); ("some", num 3); ("extreme", num 4)].

(** [map[key] || 1] *)
Definition contribution (map : object) (key : string) : value :=
  logical_or (get map key) (Number (num 1)).

(** The value of [severity] after the test of [fev1]. *)
Definition fev1_severity (fev1 : number) : number :=
  if negb (isNaN fev1) then
    if less fev1 (num 60) then Math_max (Number (num 1)) (Number (num 4))
    else if less fev1 (num 80) then Math_max (Number (num 1)) (Number (num 3))
    else num 1
  else num 1.

(** The value of [severity] after the three maps. *)
Definition severity_of (fev1 : number) (daytime nighttime activity : string)
  : number :=
  Math_max
    (Number
       (Math_max
          (Number
             (Math_max (Number (fev1_severity fev1))
                       (contribution daytimeMap daytime)))
          (contribution nighttimeMap nighttime)))
    (contribution activityMap activity).

(** The [switch] on [severity], by name. *)
Definition stage_of (severity : number) : string * string :=
  if strict_eq severity (num 1) then
    ("Intermittent (Mild) Asthma",
     "Symptoms occur infrequently (≤2 days/week), with minimal nighttime waking (≤2 times/month) and no limitation of activities. Lung function (FEV₁) is typically ≥80% predicted.")
  else if strict_eq severity (num 2) then
    ("Mild Persistent Asthma",
     "Symptoms are present on 3–6 days per week or 3–4 nights per month. There may be minor limitation of activity and FEV₁ is ≥80% predicted.")
  else if strict_eq severity (num 3) then
    ("Moderate Persistent Asthma",
     "Symptoms occur daily and nighttime awakenings ≥5 times per month. There is some limitation of activities and lung function is between 60–80% predicted.")
  else if strict_eq severity (num 4) then
    ("Severe Persistent Asthma",
     "Symptoms are present throughout the day, nighttime symptoms occur often, activities are extremely limited, and lung function is ≤60% predicted.")
  else
    ("Intermittent (Mild) Asthma",
     "Symptoms occur infrequently with minimal impact on daily activities.").

(** The four tables as the specification gives them.  The FEV1 band:
    below 60 contributes 4, from 60 to below 80 contributes 3, 80 and above
    or absent (NaN) contributes 1. *)
Definition spec_fev1_band (fev1 : number) (b : Z) : Prop :=
  (less fev1 (num 60) = true /\ b = 4)
  \/ (greater_eq fev1 (num 60) = true /\ less fev1 (num 80) = true /\ b = 3)
  \/ ((greater_eq fev1 (num 80) = true \/ isNaN fev1 = true) /\ b = 1).

Definition spec_daytime_band (daytime : string) : option Z :=
  if String.eqb daytime "<=2" then Some 1
  else if String.eqb daytime "3-6" then Some 2
  else if String.eqb daytime "daily" then Some 3
  else if String.eqb daytime "throughout" then Some 4
  else None.

Definition spec_nighttime_band (nighttime : string) : option Z :=
  if String.eqb nighttime "<=2" then Some 1
  else if String.eqb nighttime "3-4" then Some 2
  else if String.eqb nighttime "5+" then Some 3
  else if String.eqb nighttime "often" then Some 4
  else None.

Definition spec_activity_band (activity : string) : option Z :=
  if String.eqb activity "none" then Some 1
  else if String.eqb activity "minor" then Some 2
  else if String.eqb activity "some" then Some 3
  else if String.eqb activity "extreme" then Some 4
  else None.

(** A value outside the table has the default band 1. *)
Definition band_or_default (band : option Z) : Z :=
  match band with
  | Some b => b
  | None => 1
  end.

(** The four stage names. *)
Definition stage_names : list string :=
  ["Intermittent (Mild) Asthma"; "Mild Persistent Asthma";
   "Moderate Persistent Asthma"; "Severe Persistent Asthma"].

End AsthmaStatements.

(** ** Sample inputs *)

Section Samples.
Import CopdForm.

(** The page before a form is submitted: the form showing, the result
    container empty and hidden. *)
Definition fresh_page : page := mkPage "" [] "none" false [] [].

(** Five mMRC radios valued 0 to 4, the one valued [selected] checked. *)
Definition mmrc_radios (selected : Z) : list radio :=
  map (fun v => mkRadio (v =? selected) (num v)) [0; 1; 2; 3; 4].

(** The binary64 values of the literals 0.65, 0.6 and 0.75. *)
Definition lit_0_65 : number := S754_finite false 5854679515581645 (-53).
Definition lit_0_6 : number := S754_finite false 5404319552844595 (-53).
Definition lit_0_75 : number := S754_finite false 6755399441055744 (-53).

(** ratio 0.65, FEV1 55 %, one exacerbation, no hospitalization, mMRC 1. *)
Definition scenario_A : input :=
  mkInput lit_0_65 (num 55) (num 1) (num 0) (mmrc_radios 1) [] "".

(** ratio 0.60, FEV1 45 %, three exacerbations, no hospitalization, mMRC 3. *)
Definition scenario_B : input :=
  mkInput lit_0_6 (num 45) (num 3) (num 0) (mmrc_radios 3) ["LAMA"] "7".

(** Severity and stage name computed by each variant for the four answers,
    no inhaler selected, on a fresh page. *)
Definition js_outcome (fev1 : number) (daytime nighttime activity : string)
  : number * string :=
  let r := fst (AsthmaJs.computeAsthmaStage
                  (AsthmaJs.mkInput fev1 daytime nighttime activity
                                    (fun _ => None) (fun _ => None))
                  fresh_page) in
  (AsthmaJs.severity r, AsthmaJs.stageName r).

Definition part001_outcome (fev1 : number) (daytime nighttime activity : string)
  : number * string :=
  let r := fst (AsthmaPart001.computeAsthmaStage
                  (AsthmaPart001.mkInput fev1 daytime nighttime activity [] "")
                  fresh_page) in
  (AsthmaPart001.severity r, AsthmaPart001.stageName r).

End Samples.

(** ** Further definitions *)

Section MoreStatements.

(** The position of a grade and of a group on their scales. *)
Definition gold_rank (g : string) : Z :=
  if String.eqb g GOLD_1 then 1
  else if String.eqb g GOLD_2 then 2
  else if String.eqb g GOLD_3 then 3
  else if String.eqb g GOLD_4 then 4
  else 0.

Definition abe_rank (a : string) : Z :=
  if String.eqb a Group_A then 1
  else if String.eqb a Group_B then 2
  else if String.eqb a Group_E then 3
  else 0.

(** The two sentences that end the diagnostic-criterion paragraph. *)
Definition below_threshold_sentence : string :=
  ", which is below the 0.70 threshold used to confirm airflow obstruction in COPD.</p>".

Definition normal_sentence : string :=
  ". Values ≥0.70 are generally considered normal; consult a healthcare professional for interpretation.</p>".

(** The description given by the default branch of the [switch]. *)
Definition default_stage_description : string :=
  "Symptoms occur infrequently with minimal impact on daily activities.".

(** The presses of the two navigation buttons. *)
Inductive press : Type :=
| Next
| Previous.

Definition press_button (computeAsthmaStage : page -> page) (b : press)
  : Wizard.state -> Wizard.state :=
  match b with
  | Next => Wizard.nextStep computeAsthmaStage
  | Previous => Wizard.prevStep
  end.

(** A sequence of presses, the first of the list first. *)
Fixpoint presses (computeAsthmaStage : page -> page) (bs : list press)
                 (s : Wizard.state) : Wizard.state :=
  match bs with
  | [] => s
  | b :: rest =>
      presses computeAsthmaStage rest (press_button computeAsthmaStage b s)
  end.

Definition count_next (bs : list press) : Z :=
  Z.of_nat (List.length (filter (fun b => match b with
                                          | Next => true
                                          | Previous => false
                                          end) bs)).

(** A step all of whose required elements have a value. *)
Definition step_complete (st : Wizard.step) : bool :=
  forallb (fun input => negb (Wizard.required input)
                        || truthy (Wizard.value input))
          (Wizard.fields st).

(** The message of [validateCurrentStep]. *)
Definition required_field_message : string :=
  "Please complete the required field before continuing.".

(** The state as [showStep] leaves it. *)
Definition shown (s : Wizard.state) : Prop := Wizard.showStep s = s.

(** A questionnaire of five steps with the required answers given, and the
    same with the answer of the first step missing. *)
Definition five_steps : list Wizard.step :=
  [Wizard.mkStep false [Wizard.mkField false "85"];
   Wizard.mkStep false [Wizard.mkField true "daily"];
   Wizard.mkStep false [Wizard.mkField true "<=2"];
   Wizard.mkStep false [Wizard.mkField true "none"];
   Wizard.mkStep false [Wizard.mkField false ""; Wizard.mkField false ""]].

(** The form of scenario C in each variant. *)
Definition sample_asthma_form : AsthmaJs.input :=
  AsthmaJs.mkInput (num 85) "daily" "<=2" "none" (fun _ => None) (fun _ => None).

Definition sample_part001_form : AsthmaPart001.input :=
  AsthmaPart001.mkInput (num 85) "daily" "<=2" "none" [] "".

(** The state once the page is loaded: [showStep] on the first step. *)
Definition loaded (steps : list Wizard.step) : Wizard.state :=
  Wizard.showStep (Wizard.mkState 1 steps false "" fresh_page).

End MoreStatements.

(** * Properties *)

(** ** The order of Numbers *)

(** The lemmas hold of every [spec_float], so of every binary64 value. *)

Section NumberOrder.

Lemma compare_cont_Eq_antisym (p q : positive) :
  PosDef.Pos.compare_cont Eq q p = CompOpp (PosDef.Pos.compare_cont Eq p q).
Proof. exact (Pos.compare_antisym p q). Qed.

Lemma SFcompare_antisym (x y : number) :
  SFcompare y x = option_map CompOpp (SFcompare x y).
Proof.
  destruct x as [sx|sx| |sx mx ex], y as [sy|sy| |sy my ey];
    try destruct sx; try destruct sy; simpl; try reflexivity;
    rewrite (Z.compare_antisym ex ey), (compare_cont_Eq_antisym mx my);
    destruct (ex ?= ey); simpl; reflexivity.
Qed.

Ltac order_cases :=
  unfold SFltb, SFleb;
  repeat match goal with
         | x : number |- _ => destruct x as [[|]|[|]| |[|] ? ?]
         | x : spec_float |- _ => destruct x as [[|]|[|]| |[|] ? ?]
         end;
  simpl; try discriminate; try reflexivity;
  change (PosDef.Pos.compare_cont Eq) with Pos.compare;
  repeat match goal with
         | |- context [Z.compare ?a ?b] => destruct (Z.compare_spec a b)
         | |- context [Pos.compare ?a ?b] => destruct (Pos.compare_spec a b)
         end;
  simpl; try discriminate; try reflexivity; intros; exfalso; subst; lia.

Lemma SFltb_leb_trans (x y z : number) :
  SFltb x y = true -> SFleb y z = true -> SFltb x z = true.
Proof. order_cases. Qed.

(** [x < y] excludes [x >= y]. *)
Lemma less_not_greater_eq (x y : number) :
  less x y = true -> greater_eq x y = false.
Proof.
  unfold less, greater_eq, SFltb, SFleb. rewrite (SFcompare_antisym x y).
  destruct (SFcompare x y) as [[| |]|]; simpl; congruence.
Qed.

(** Below a threshold, below every larger one. *)
Lemma less_below (x a b : number) :
  less x a = true -> greater_eq b a = true -> greater_eq x b = false.
Proof.
  intros Hx Hab. apply less_not_greater_eq.
  exact (SFltb_leb_trans x a b Hx Hab).
Qed.

(** Numbers other than NaN are totally ordered. *)
Lemma not_less_greater_eq (x y : number) :
  isNaN x = false -> isNaN y = false -> less x y = false -> greater_eq x y = true.
Proof.
  unfold less, greater_eq, SFltb, SFleb. rewrite (SFcompare_antisym x y).
  destruct x as [[|]|[|]| |[|] ? ?], y as [[|]|[|]| |[|] ? ?]; simpl;
    try discriminate; try reflexivity;
    intros _ _;
    match goal with
    | |- context [Z.compare ?a ?b] =>
        destruct (Z.compare a b); simpl; try discriminate; try reflexivity;
        destruct (PosDef.Pos.compare_cont Eq _ _); simpl; congruence
    end.
Qed.

(** Hence what is not [>=] a number is below it. *)
Lemma not_greater_eq_less (x y : number) :
  isNaN x = false -> isNaN y = false -> greater_eq x y = false -> less x y = true.
Proof.
  intros Hx Hy H. destruct (less x y) eqn:L; [reflexivity|].
  rewrite (not_less_greater_eq x y Hx Hy L) in H. discriminate.
Qed.

Lemma greater_eq_not_NaN (x y : number) : greater_eq x y = true -> isNaN x = false.
Proof. destruct x, y; simpl; try reflexivity; discriminate. Qed.

Lemma less_not_NaN (x y : number) : less x y = true -> isNaN x = false.
Proof. destruct x, y; simpl; try reflexivity; discriminate. Qed.

End NumberOrder.

(** ** COPD: grade, group, validation *)

Section CopdValidation.
Import CopdForm.

Lemma mmrc_of_from (radios : list radio) (start : option number) :
  fold_left (fun mmrc r => if checked r then Some (value r) else mmrc) radios start
  = match mmrc_of radios with
    | Some m => Some m
    | None => start
    end.
Proof.
  unfold mmrc_of. revert start.
  induction radios as [|r radios IH]; intro start; simpl.
  - reflexivity.
  - rewrite (IH (if checked r then Some (value r) else start)).
    rewrite (IH (if checked r then Some (value r) else None)).
    destruct (fold_left _ radios None); [reflexivity|].
    destruct (checked r); reflexivity.
Qed.

Lemma mmrc_of_checked (radios : list radio) :
  existsb checked radios = true -> exists m, mmrc_of radios = Some m.
Proof.
  induction radios as [|r radios IH]; simpl; [discriminate|].
  unfold mmrc_of; simpl. rewrite mmrc_of_from.
  destruct (mmrc_of radios) as [m|] eqn:E.
  - intros _. exists m. reflexivity.
  - destruct (checked r); simpl.
    + intros _. exists (value r). reflexivity.
    + intro H. destruct (IH H) as [m Hm]. discriminate.
Qed.

Lemma mmrc_of_unchecked (radios : list radio) :
  existsb checked radios = false -> mmrc_of radios = None.
Proof.
  induction radios as [|r radios IH]; simpl; [reflexivity|].
  intro H. apply orb_false_iff in H. destruct H as [Hr Hrest].
  unfold mmrc_of; simpl. rewrite mmrc_of_from, (IH Hrest), Hr. reflexivity.
Qed.

Lemma filled_guard (i : input) :
  filled i = true ->
  (isNaN (ratio i) || isNaN (fev1percent i) || isNaN (exacerbations i)
   || isNaN (hospitalizations i)) = false
  /\ exists m, mmrc_of (mmrcInputs i) = Some m.
Proof.
  unfold filled. intro H. apply andb_true_iff in H. destruct H as [Hn Hc].
  split.
  - apply negb_true_iff. exact Hn.
  - apply mmrc_of_checked. exact Hc.
Qed.

Lemma filled_not_NaN (i : input) :
  filled i = true -> isNaN (fev1percent i) = false.
Proof.
  intro H. destruct (filled_guard i H) as [Hn _].
  destruct (isNaN (ratio i)), (isNaN (fev1percent i)); simpl in Hn;
    try discriminate; reflexivity.
Qed.

End CopdValidation.

Section CopdClassification.
Import CopdForm.

Ltac run_copd Hn Hm :=
  unfold CopdJs.computeCOPD, CopdPart000.computeCOPD;
  rewrite ?Hn, ?Hm.

Lemma gold_name_fst (f : number) (gd : string * string) :
  (if greater_eq f (num 80) then
     (GOLD_1, "Airflow obstruction is mild with FEV₁ ≥80% predicted.")
   else if greater_eq f (num 50) then
     (GOLD_2,
      "Airflow obstruction is moderate with FEV₁ between 50% and 79% predicted.")
   else if greater_eq f (num 30) then
     (GOLD_3,
      "Airflow obstruction is severe with FEV₁ between 30% and 49% predicted.")
   else
     (GOLD_4, "Airflow obstruction is very severe with FEV₁ <30% predicted."))
  = gd ->
  fst gd = gold_name f.
Proof.
  intros <-. unfold gold_name.
  destruct (greater_eq f (num 80)); [reflexivity|].
  destruct (greater_eq f (num 50)); [reflexivity|].
  destruct (greater_eq f (num 30)); reflexivity.
Qed.

Lemma abe_name_fst (h e m : number) (d1 d2 d3 : string) (ad : string * string) :
  (if greater_eq h (num 1) || greater_eq e (num 2) then (Group_E, d1)
   else if greater_eq m (num 2) then (Group_B, d2)
   else (Group_A, d3)) = ad ->
  fst ad = abe_name h e m.
Proof.
  intros <-. unfold abe_name.
  destruct (greater_eq h (num 1) || greater_eq e (num 2)); [reflexivity|].
  destruct (greater_eq m (num 2)); reflexivity.
Qed.

Ltac name_pairs g d Eg a ad Ea :=
  match goal with
  | |- context [let '(_, _) := ?E in _] => destruct E as [g d] eqn:Eg
  end;
  match goal with
  | |- context [let '(_, _) := ?E in _] => destruct E as [a ad] eqn:Ea
  end;
  apply gold_name_fst in Eg; apply abe_name_fst in Ea; simpl in Eg, Ea.

Lemma copd_classified (i : input) (p : page) :
  filled i = true ->
  exists m, mmrc_of (mmrcInputs i) = Some m
            /\ grades i p (gold_name (fev1percent i))
            /\ groups i p (abe_name (hospitalizations i) (exacerbations i) m).
Proof.
  intro H. destruct (filled_guard i H) as [Hn [m Hm]].
  exists m. split; [exact Hm|].
  unfold grades, groups.
  run_copd Hn Hm. cbv zeta.
  repeat split; name_pairs g d Eg a ad Ea;
    eexists; eexists; (split; [reflexivity|assumption]).
Qed.

Lemma grades_unique (i : input) (p : page) (g g' : string) :
  grades i p g -> grades i p g' -> g = g'.
Proof.
  intros [[r [q [E G]]] _] [[r' [q' [E' G']]] _].
  rewrite E in E'. injection E' as Er _. subst r'. congruence.
Qed.

Lemma groups_unique (i : input) (p : page) (a a' : string) :
  groups i p a -> groups i p a' -> a = a'.
Proof.
  intros [[r [q [E G]]] _] [[r' [q' [E' G']]] _].
  rewrite E in E'. injection E' as Er _. subst r'. congruence.
Qed.

End CopdClassification.

Section CopdClaims.
Import CopdForm.

(** C1.  On every input that passes the validation, both variants of
    [computeCOPD] assign a GOLD grade fixed by [fev1percent] alone:
    GOLD 1 from 80 up, GOLD 2 from 50 up to below 80, GOLD 3 from 30 up to
    below 50, GOLD 4 below 30; exactly 80, 50 and 30 give GOLD 1, 2 and 3;
    one of the four bands applies; and two inputs with the same
    [fev1percent] get the same grade whatever their other fields. *)
Theorem gold_grade_by_fev1percent (i : input) (p : page) :
  filled i = true ->
  exists g,
    grades i p g
    /\ (greater_eq (fev1percent i) (num 80) = true -> g = GOLD_1)
    /\ (greater_eq (fev1percent i) (num 50) = true ->
        less (fev1percent i) (num 80) = true -> g = GOLD_2)
    /\ (greater_eq (fev1percent i) (num 30) = true ->
        less (fev1percent i) (num 50) = true -> g = GOLD_3)
    /\ (less (fev1percent i) (num 30) = true -> g = GOLD_4)
    /\ (fev1percent i = num 80 -> g = GOLD_1)
    /\ (fev1percent i = num 50 -> g = GOLD_2)
    /\ (fev1percent i = num 30 -> g = GOLD_3)
    /\ (greater_eq (fev1percent i) (num 80) = true
        \/ (greater_eq (fev1percent i) (num 50) = true
            /\ less (fev1percent i) (num 80) = true)
        \/ (greater_eq (fev1percent i) (num 30) = true
            /\ less (fev1percent i) (num 50) = true)
        \/ less (fev1percent i) (num 30) = true)
    /\ (forall i' p' g',
           filled i' = true -> fev1percent i' = fev1percent i ->
           grades i' p' g' -> g' = g).
Proof.
  intro H. destruct (copd_classified i p H) as [m [_ [Hg _]]].
  pose proof (filled_not_NaN i H) as Hnan.
  exists (gold_name (fev1percent i)). split; [exact Hg|].
  unfold gold_name.
  repeat match goal with |- _ /\ _ => split end.
  - intros ->. reflexivity.
  - intros H50 H80. rewrite (less_not_greater_eq _ _ H80), H50. reflexivity.
  - intros H30 H50.
    rewrite (less_below _ (num 50) (num 80) H50 eq_refl).
    rewrite (less_not_greater_eq _ _ H50), H30. reflexivity.
  - intros H30.
    rewrite (less_below _ (num 30) (num 80) H30 eq_refl).
    rewrite (less_below _ (num 30) (num 50) H30 eq_refl).
    rewrite (less_not_greater_eq _ _ H30). reflexivity.
  - intros ->. reflexivity.
  - intros ->. reflexivity.
  - intros ->. reflexivity.
  - destruct (greater_eq (fev1percent i) (num 80)) eqn:G80; [left; reflexivity|].
    right.
    pose proof (not_greater_eq_less _ (num 80) Hnan eq_refl G80) as L80.
    destruct (greater_eq (fev1percent i) (num 50)) eqn:G50;
      [left; split; [reflexivity|exact L80]|].
    right.
    pose proof (not_greater_eq_less _ (num 50) Hnan eq_refl G50) as L50.
    destruct (greater_eq (fev1percent i) (num 30)) eqn:G30;
      [left; split; [reflexivity|exact L50]|].
    right. exact (not_greater_eq_less _ (num 30) Hnan eq_refl G30).
  - intros i' p' g' H' Hf Hg'.
    destruct (copd_classified i' p' H') as [m' [_ [Hg'' _]]].
    rewrite (grades_unique i' p' _ _ Hg' Hg''), Hf. reflexivity.
Qed.

Lemma gold_grade_by_fev1percent_witness :
  filled scenario_A = true /\ grades scenario_A fresh_page GOLD_2.
Proof.
  split; [reflexivity|].
  destruct (gold_grade_by_fev1percent scenario_A fresh_page eq_refl)
    as [g [Hg [_ [H2 _]]]].
  rewrite <- (H2 eq_refl eq_refl). exact Hg.
Defined.

(** C2.  On every input that passes the validation, both variants of
    [computeCOPD] assign the ABE group by first match: Group E when
    [hospitalizations >= 1] or [exacerbations >= 2], whatever the mMRC
    score; otherwise Group B when [mmrc >= 2]; otherwise Group A. *)
Theorem abe_group_first_match (i : input) (p : page) :
  filled i = true ->
  exists mmrc a,
    mmrc_of (mmrcInputs i) = Some mmrc
    /\ groups i p a
    /\ (greater_eq (hospitalizations i) (num 1) = true
        \/ greater_eq (exacerbations i) (num 2) = true -> a = Group_E)
    /\ (greater_eq (hospitalizations i) (num 1) = false ->
        greater_eq (exacerbations i) (num 2) = false ->
        greater_eq mmrc (num 2) = true -> a = Group_B)
    /\ (greater_eq (hospitalizations i) (num 1) = false ->
        greater_eq (exacerbations i) (num 2) = false ->
        greater_eq mmrc (num 2) = false -> a = Group_A).
Proof.
  intro H. destruct (copd_classified i p H) as [m [Hm [_ Ha]]].
  exists m, (abe_name (hospitalizations i) (exacerbations i) m).
  split; [exact Hm|]. split; [exact Ha|].
  unfold abe_name. repeat split.
  - intros [-> | ->]; [reflexivity|]. rewrite orb_true_r. reflexivity.
  - intros -> -> ->. reflexivity.
  - intros -> -> ->. reflexivity.
Qed.

Lemma abe_group_first_match_witness :
  filled scenario_B = true /\ groups scenario_B fresh_page Group_E.
Proof.
  split; [reflexivity|].
  destruct (abe_group_first_match scenario_B fresh_page eq_refl)
    as [m [a [_ [Ha [HE _]]]]].
  rewrite <- (HE (or_intror eq_refl)). exact Ha.
Defined.

(** C7.  When one of the four numbers is NaN (its field empty or not a
    number) or no mMRC radio is checked, both variants of [computeCOPD]
    show the validation message and return at once: no grade, group or
    report exists, and what the page displays is what it displayed before. *)
Theorem missing_field_rejected (i : input) (p : page) :
  isNaN (ratio i) = true \/ isNaN (fev1percent i) = true
  \/ isNaN (exacerbations i) = true \/ isNaN (hospitalizations i) = true
  \/ existsb checked (mmrcInputs i) = false ->
  CopdJs.computeCOPD i p = (None, alert required_fields_message p)
  /\ CopdPart000.computeCOPD i p = (None, alert required_fields_message p)
  /\ displayed (alert required_fields_message p) = displayed p
  /\ alerts (alert required_fields_message p)
     = alerts p ++ [required_fields_message].
Proof.
  intro H.
  assert (G : (isNaN (ratio i) || isNaN (fev1percent i)
               || isNaN (exacerbations i) || isNaN (hospitalizations i)) = true
              \/ mmrc_of (mmrcInputs i) = None).
  { destruct H as [H | [H | [H | [H | H]]]].
    - left. rewrite H. reflexivity.
    - left. rewrite H, orb_true_r. reflexivity.
    - left. rewrite H, orb_true_r. reflexivity.
    - left. rewrite H, orb_true_r. reflexivity.
    - right. apply mmrc_of_unchecked. exact H. }
  unfold CopdJs.computeCOPD, CopdPart000.computeCOPD.
  destruct G as [G | G]; rewrite G.
  - repeat split.
  - destruct (isNaN (ratio i) || isNaN (fev1percent i)
              || isNaN (exacerbations i) || isNaN (hospitalizations i));
      repeat split.
Qed.

Lemma missing_field_rejected_witness :
  CopdJs.computeCOPD
    (mkInput lit_0_65 NaN (num 1) (num 0) (mmrc_radios 1) [] "") fresh_page
  = (None, alert required_fields_message fresh_page).
Proof.
  apply (missing_field_rejected
           (mkInput lit_0_65 NaN (num 1) (num 0) (mmrc_radios 1) [] "")
           fresh_page).
  right. left. reflexivity.
Defined.

(** C6.  Two inputs that pass the validation and agree on every field but
    [ratio] get, from both variants of [computeCOPD], the same GOLD grade
    and the same ABE group, whatever the two ratios are (0.70 and above
    included: no test on [ratio] guards the classification).  The two
    reports are the heading, the diagnostic-criterion paragraph of the
    respective ratio, and one common remainder; descriptions and
    recommendation coincide. *)
Theorem ratio_noninterference (i1 i2 : input) (p : page) :
  filled i1 = true -> filled i2 = true -> agree_except_ratio i1 i2 ->
  (exists g a,
      grades i1 p g /\ grades i2 p g /\ groups i1 p a /\ groups i2 p a)
  /\ (exists r1 r2 p1 p2 rest,
         CopdJs.computeCOPD i1 p = (Some r1, p1)
         /\ CopdJs.computeCOPD i2 p = (Some r2, p2)
         /\ CopdJs.goldDescription r1 = CopdJs.goldDescription r2
         /\ CopdJs.abeDescription r1 = CopdJs.abeDescription r2
         /\ CopdJs.resultHtml r1
            = Lit "<h2>Results</h2>" :: diagnostic_criterion (ratio i1) ++ rest
         /\ CopdJs.resultHtml r2
            = Lit "<h2>Results</h2>" :: diagnostic_criterion (ratio i2) ++ rest)
  /\ (exists r1 r2 p1 p2 rest,
         CopdPart000.computeCOPD i1 p = (Some r1, p1)
         /\ CopdPart000.computeCOPD i2 p = (Some r2, p2)
         /\ CopdPart000.goldDescription r1 = CopdPart000.goldDescription r2
         /\ CopdPart000.abeDescription r1 = CopdPart000.abeDescription r2
         /\ CopdPart000.copdRecommendation r1 = CopdPart000.copdRecommendation r2
         /\ CopdPart000.resultHtml r1
            = Lit "<h2>Results</h2>" :: diagnostic_criterion (ratio i1) ++ rest
         /\ CopdPart000.resultHtml r2
            = Lit "<h2>Results</h2>" :: diagnostic_criterion (ratio i2) ++ rest).
Proof.
  intros H1 H2 A.
  destruct (copd_classified i1 p H1) as [m1 [Hm1 [Hg1 Ha1]]].
  destruct (copd_classified i2 p H2) as [m2 [Hm2 [Hg2 Ha2]]].
  destruct (filled_guard i1 H1) as [Hn1 _].
  destruct (filled_guard i2 H2) as [Hn2 _].
  destruct i1 as [ratio1 f1 e1 h1 radios1 inh1 freq1].
  destruct i2 as [ratio2 f2 e2 h2 radios2 inh2 freq2].
  unfold agree_except_ratio in A. simpl in A.
  destruct A as [<- [<- [<- [<- [<- <-]]]]].
  cbn [fev1percent exacerbations hospitalizations mmrcInputs] in *.
  assert (m2 = m1) by congruence. subst m2.
  split; [|split].
  - exists (gold_name f1), (abe_name h1 e1 m1). auto.
  - unfold CopdJs.computeCOPD.
    cbn [ratio fev1percent exacerbations hospitalizations mmrcInputs
         inhalers frequency] in *.
    rewrite Hn1, Hn2, Hm1. cbv zeta.
    match goal with
    | |- context [let '(_, _) := ?E in _] => destruct E as [g d]
    end.
    match goal with
    | |- context [let '(_, _) := ?E in _] => destruct E as [a ad]
    end.
    rewrite <- !app_assoc.
    do 5 eexists. repeat split.
  - unfold CopdPart000.computeCOPD.
    cbn [ratio fev1percent exacerbations hospitalizations mmrcInputs
         inhalers frequency] in *.
    rewrite Hn1, Hn2, Hm1. cbv zeta.
    match goal with
    | |- context [let '(_, _) := ?E in _] => destruct E as [g d]
    end.
    match goal with
    | |- context [let '(_, _) := ?E in _] => destruct E as [a ad]
    end.
    rewrite <- !app_assoc.
    do 5 eexists. repeat split.
Qed.

Lemma ratio_noninterference_witness :
  exists g a,
    grades scenario_A fresh_page g
    /\ grades (mkInput lit_0_75 (num 55) (num 1) (num 0) (mmrc_radios 1) [] "")
              fresh_page g
    /\ groups scenario_A fresh_page a
    /\ groups (mkInput lit_0_75 (num 55) (num 1) (num 0) (mmrc_radios 1) [] "")
              fresh_page a.
Proof.
  apply (ratio_noninterference
           scenario_A
           (mkInput lit_0_75 (num 55) (num 1) (num 0) (mmrc_radios 1) [] "")
           fresh_page eq_refl eq_refl).
  repeat split.
Defined.

Lemma In_has_piece (s : string) (h : html) :
  In (Lit s) h -> has_piece s h = true.
Proof.
  intro H. apply existsb_exists. exists (Lit s).
  split; [exact H | apply String.eqb_refl].
Qed.

(** C8, as stated, fails on src/copd.js: the report it builds for
    scenario A has no recommendation, and no piece of it mentions one. *)
Lemma copd_js_report_has_no_recommendation :
  filled scenario_A = true
  /\ exists r p',
      CopdJs.computeCOPD scenario_A fresh_page = (Some r, p')
      /\ ~ includes_recommendation (CopdJs.resultHtml r)
      /\ mentions "recommended treatment" (CopdJs.resultHtml r) = false.
Proof.
  split; [reflexivity|].
  eexists. eexists. split; [reflexivity|]. split.
  - intros [para [Hpara Hin]]. apply In_has_piece in Hin.
    destruct Hpara as [<- | [<- | [<- | []]]]; vm_compute in Hin;
      discriminate Hin.
  - vm_compute. reflexivity.
Qed.

Lemma part000_recommendation (i : input) (p : page) :
  filled i = true ->
  exists r p',
    CopdPart000.computeCOPD i p = (Some r, p')
    /\ In (CopdPart000.abeGroup r) [Group_A; Group_B; Group_E]
    /\ CopdPart000.copdRecommendation r
       = recommendation_for (CopdPart000.abeGroup r)
    /\ exists before after,
        CopdPart000.resultHtml r
        = before ++ Lit (CopdPart000.copdRecommendation r) :: after.
Proof.
  intro H. destruct (filled_guard i H) as [Hn [m Hm]].
  unfold CopdPart000.computeCOPD. rewrite Hn, Hm. cbv zeta.
  match goal with
  | |- context [let '(_, _) := ?E in _] => destruct E as [g d]
  end.
  destruct (greater_eq (hospitalizations i) (num 1)
            || greater_eq (exacerbations i) (num 2));
    [|destruct (greater_eq m (num 2))];
    cbv iota beta;
    (eexists; eexists; split; [reflexivity|]);
    (split; [simpl; tauto|]);
    (split; [reflexivity|]);
    cbn [CopdPart000.resultHtml CopdPart000.copdRecommendation];
    rewrite <- (app_assoc _ _ [_]);
    eexists; eexists; reflexivity.
Qed.

Lemma recommendations_distinct :
  recommendation_A <> recommendation_B
  /\ recommendation_A <> recommendation_E
  /\ recommendation_B <> recommendation_E.
Proof.
  repeat split; intro H;
    apply (f_equal (fun s => String.get 70 s)) in H; vm_compute in H;
    discriminate H.
Qed.

(** C8, amended.  In src/unnamed/part_000, on every input that passes the
    validation, the report carries exactly the paragraph selected by the
    ABE group: the one for Group A, for Group B or for Group E.  What is
    selected depends on the group alone: two inputs with the same group get
    the same paragraph, whatever their other fields. *)
Theorem recommendation_by_group (i : input) (p : page) :
  filled i = true ->
  exists r p',
    CopdPart000.computeCOPD i p = (Some r, p')
    /\ (CopdPart000.abeGroup r = Group_A ->
        CopdPart000.copdRecommendation r = recommendation_A)
    /\ (CopdPart000.abeGroup r = Group_B ->
        CopdPart000.copdRecommendation r = recommendation_B)
    /\ (CopdPart000.abeGroup r = Group_E ->
        CopdPart000.copdRecommendation r = recommendation_E)
    /\ In (CopdPart000.copdRecommendation r)
          [recommendation_A; recommendation_B; recommendation_E]
    /\ (exists before after,
           CopdPart000.resultHtml r
           = before ++ Lit (CopdPart000.copdRecommendation r) :: after)
    /\ includes_recommendation (CopdPart000.resultHtml r)
    /\ (forall i' q r' q',
           filled i' = true ->
           CopdPart000.computeCOPD i' q = (Some r', q') ->
           CopdPart000.abeGroup r' = CopdPart000.abeGroup r ->
           CopdPart000.copdRecommendation r' = CopdPart000.copdRecommendation r).
Proof.
  intro H.
  destruct (part000_recommendation i p H) as [r [p' [E [Hin [Hrec Hhtml]]]]].
  exists r, p'. split; [exact E|].
  assert (Hsel : In (CopdPart000.copdRecommendation r)
                    [recommendation_A; recommendation_B; recommendation_E]).
  { rewrite Hrec.
    destruct Hin as [<- | [<- | [<- | []]]]; simpl; tauto. }
  repeat split.
  - intro G. rewrite Hrec, G. reflexivity.
  - intro G. rewrite Hrec, G. reflexivity.
  - intro G. rewrite Hrec, G. reflexivity.
  - exact Hsel.
  - exact Hhtml.
  - destruct Hhtml as [before [after Hh]].
    exists (CopdPart000.copdRecommendation r). split; [exact Hsel|].
    rewrite Hh. apply in_or_app. right. left. reflexivity.
  - intros i' q r' q' H' E' G.
    destruct (part000_recommendation i' q H') as [r'' [q'' [E'' [_ [Hrec' _]]]]].
    rewrite E' in E''. injection E'' as -> _.
    rewrite Hrec, Hrec', G. reflexivity.
Qed.

Lemma recommendation_by_group_witness :
  exists r p',
    CopdPart000.computeCOPD scenario_B fresh_page = (Some r, p')
    /\ CopdPart000.abeGroup r = Group_E
    /\ CopdPart000.copdRecommendation r = recommendation_E.
Proof.
  destruct (recommendation_by_group scenario_B fresh_page eq_refl)
    as [r [p' [E [_ [_ [HE _]]]]]].
  exists r, p'. split; [exact E|].
  assert (G : CopdPart000.abeGroup r = Group_E).
  { vm_compute in E. injection E as <- _. reflexivity. }
  split; [exact G | exact (HE G)].
Defined.

End CopdClaims.

(** ** Asthma: severity and stage *)

Section AsthmaSeverity.

Lemma asthma_js_result (i : AsthmaJs.input) (p : page) :
  AsthmaJs.severity (fst (AsthmaJs.computeAsthmaStage i p))
  = severity_of (AsthmaJs.fev1 i) (AsthmaJs.daytime i) (AsthmaJs.nighttime i)
                (AsthmaJs.activity i)
  /\ (AsthmaJs.stageName (fst (AsthmaJs.computeAsthmaStage i p)),
      AsthmaJs.stageDescription (fst (AsthmaJs.computeAsthmaStage i p)))
     = stage_of (AsthmaJs.severity (fst (AsthmaJs.computeAsthmaStage i p))).
Proof.
  unfold AsthmaJs.computeAsthmaStage. cbv zeta.
  match goal with
  | |- context [let '(_, _) := ?E in _] => destruct E as [nm ds] eqn:HE
  end.
  cbn [fst AsthmaJs.severity AsthmaJs.stageName AsthmaJs.stageDescription].
  split; [reflexivity | symmetry; exact HE].
Qed.

Lemma asthma_part001_result (i : AsthmaPart001.input) (p : page) :
  AsthmaPart001.severity (fst (AsthmaPart001.computeAsthmaStage i p))
  = severity_of (AsthmaPart001.fev1 i) (AsthmaPart001.daytime i)
                (AsthmaPart001.nighttime i) (AsthmaPart001.activity i)
  /\ (AsthmaPart001.stageName (fst (AsthmaPart001.computeAsthmaStage i p)),
      AsthmaPart001.stageDescription (fst (AsthmaPart001.computeAsthmaStage i p)))
     = stage_of (AsthmaPart001.severity (fst (AsthmaPart001.computeAsthmaStage i p))).
Proof.
  unfold AsthmaPart001.computeAsthmaStage. cbv zeta.
  match goal with
  | |- context [let '(_, _) := ?E in _] => destruct E as [nm ds] eqn:HE
  end.
  cbn [fst AsthmaPart001.severity AsthmaPart001.stageName
       AsthmaPart001.stageDescription].
  split; [reflexivity | symmetry; exact HE].
Qed.

End AsthmaSeverity.

Section Variants.
Import CopdForm.

(** C10.  The two variants of each script classify alike.  On every COPD
    input, src/copd.js and src/unnamed/part_000 either both stop at the
    validation or both assign the same GOLD grade and the same ABE group;
    on an input that passes the validation both do assign them, with the
    same descriptions.  On every asthma input (the four answers shared,
    the inhaler fields of each variant arbitrary), src/asthma.js and
    src/unnamed/part_001 compute the same severity, the same stage name
    and the same stage description. *)
Theorem variants_classify_alike :
  (forall (i : input) (p : page),
      option_map (fun r => (CopdJs.goldGrade r, CopdJs.abeGroup r))
                 (fst (CopdJs.computeCOPD i p))
      = option_map (fun r => (CopdPart000.goldGrade r, CopdPart000.abeGroup r))
                   (fst (CopdPart000.computeCOPD i p)))
  /\ (forall (i : input) (p : page),
         filled i = true ->
         exists r0 p0 r1 p1,
           CopdJs.computeCOPD i p = (Some r0, p0)
           /\ CopdPart000.computeCOPD i p = (Some r1, p1)
           /\ CopdJs.goldGrade r0 = CopdPart000.goldGrade r1
           /\ CopdJs.goldDescription r0 = CopdPart000.goldDescription r1
           /\ CopdJs.abeGroup r0 = CopdPart000.abeGroup r1
           /\ CopdJs.abeDescription r0 = CopdPart000.abeDescription r1)
  /\ (forall (fev1 : number) (daytime nighttime activity : string)
             (inh : string -> option AsthmaJs.checkbox)
             (freq_value : string -> option string)
             (inhalers : list string) (frequency : string) (p q : page),
         let r0 :=
           fst (AsthmaJs.computeAsthmaStage
                  (AsthmaJs.mkInput fev1 daytime nighttime activity inh freq_value)
                  p) in
         let r1 :=
           fst (AsthmaPart001.computeAsthmaStage
                  (AsthmaPart001.mkInput fev1 daytime nighttime activity
                                         inhalers frequency)
                  q) in
         AsthmaJs.severity r0 = AsthmaPart001.severity r1
         /\ AsthmaJs.stageName r0 = AsthmaPart001.stageName r1
         /\ AsthmaJs.stageDescription r0 = AsthmaPart001.stageDescription r1).
Proof.
  split; [|split].
  - intros i p. unfold CopdJs.computeCOPD, CopdPart000.computeCOPD.
    destruct (isNaN (ratio i) || isNaN (fev1percent i)
              || isNaN (exacerbations i) || isNaN (hospitalizations i));
      [reflexivity|].
    destruct (mmrc_of (mmrcInputs i)) as [m|]; [|reflexivity].
    cbv zeta.
    match goal with
    | |- context [let '(_, _) := ?E in _] => destruct E as [g d]
    end.
    match goal with
    | |- context [let '(_, _) := ?E in _] => destruct E as [a ad]
    end.
    reflexivity.
  - intros i p H. destruct (filled_guard i H) as [Hn [m Hm]].
    unfold CopdJs.computeCOPD, CopdPart000.computeCOPD.
    rewrite Hn, Hm. cbv zeta.
    match goal with
    | |- context [let '(_, _) := ?E in _] => destruct E as [g d]
    end.
    match goal with
    | |- context [let '(_, _) := ?E in _] => destruct E as [a ad]
    end.
    do 4 eexists. repeat split.
  - intros fev1 daytime nighttime activity inh freq_value inhalers frequency p q.
    cbv zeta.
    destruct (asthma_js_result
                (AsthmaJs.mkInput fev1 daytime nighttime activity inh freq_value) p)
      as [S0 N0].
    destruct (asthma_part001_result
                (AsthmaPart001.mkInput fev1 daytime nighttime activity
                                       inhalers frequency) q)
      as [S1 N1].
    rewrite S0 in N0. rewrite S1 in N1.
    cbn [AsthmaJs.fev1 AsthmaJs.daytime AsthmaJs.nighttime AsthmaJs.activity
         AsthmaPart001.fev1 AsthmaPart001.daytime AsthmaPart001.nighttime
         AsthmaPart001.activity] in *.
    rewrite <- N1 in N0. injection N0 as Hname Hdesc.
    split; [|split].
    + rewrite S0, S1. reflexivity.
    + exact Hname.
    + exact Hdesc.
Qed.

Lemma variants_classify_alike_witness :
  exists r0 p0 r1 p1,
    CopdJs.computeCOPD scenario_B fresh_page = (Some r0, p0)
    /\ CopdPart000.computeCOPD scenario_B fresh_page = (Some r1, p1)
    /\ CopdJs.goldGrade r0 = CopdPart000.goldGrade r1
    /\ CopdJs.goldDescription r0 = CopdPart000.goldDescription r1
    /\ CopdJs.abeGroup r0 = CopdPart000.abeGroup r1
    /\ CopdJs.abeDescription r0 = CopdPart000.abeDescription r1.
Proof.
  exact (proj1 (proj2 variants_classify_alike) scenario_B fresh_page eq_refl).
Defined.

End Variants.

(** ** Asthma: the bands of the specification *)

Section AsthmaBands.

Ltac table_cases H :=
  repeat match type of H with
         | (if String.eqb ?s ?k then _ else _) = _ =>
             destruct (String.eqb_spec s k); [subst s|]
         end;
  try discriminate H; try (injection H as <-).

Lemma daytime_contribution (daytime : string) (b : Z) :
  spec_daytime_band daytime = Some b ->
  1 <= b <= 4 /\ contribution daytimeMap daytime = Number (num b).
Proof.
  unfold spec_daytime_band. intro H.
  table_cases H; (split; [lia | reflexivity]).
Qed.

Lemma nighttime_contribution (nighttime : string) (b : Z) :
  spec_nighttime_band nighttime = Some b ->
  1 <= b <= 4 /\ contribution nighttimeMap nighttime = Number (num b).
Proof.
  unfold spec_nighttime_band. intro H.
  table_cases H; (split; [lia | reflexivity]).
Qed.

Lemma activity_contribution (activity : string) (b : Z) :
  spec_activity_band activity = Some b ->
  1 <= b <= 4 /\ contribution activityMap activity = Number (num b).
Proof.
  unfold spec_activity_band. intro H.
  table_cases H; (split; [lia | reflexivity]).
Qed.

(** [Math.max] on the integers 1 to 4. *)
Lemma Math_max_num (x y : Z) :
  1 <= x <= 4 -> 1 <= y <= 4 ->
  Math_max (Number (num x)) (Number (num y)) = num (Z.max x y).
Proof.
  intros Hx Hy.
  assert (Cx : x = 1 \/ x = 2 \/ x = 3 \/ x = 4) by lia.
  assert (Cy : y = 1 \/ y = 2 \/ y = 3 \/ y = 4) by lia.
  destruct Cx as [-> | [-> | [-> | ->]]];
    destruct Cy as [-> | [-> | [-> | ->]]]; reflexivity.
Qed.

(** The FEV1 test of the code against the FEV1 band of the specification. *)
Lemma fev1_band_of_code (fev1 : number) :
  exists b,
    spec_fev1_band fev1 b
    /\ (forall b', spec_fev1_band fev1 b' -> b' = b)
    /\ 1 <= b <= 4
    /\ fev1_severity fev1 = num b.
Proof.
  unfold fev1_severity.
  destruct (isNaN fev1) eqn:Hnan; cbn [negb].
  - exists 1. split; [|split; [|split; [lia|reflexivity]]].
    + right. right. split; [right; exact Hnan | reflexivity].
    + intros b' [[H _] | [[H _] | [_ H]]]; [| |exact H].
      * rewrite (less_not_NaN _ _ H) in Hnan. discriminate.
      * rewrite (greater_eq_not_NaN _ _ H) in Hnan. discriminate.
  - destruct (less fev1 (num 60)) eqn:H60.
    + exists 4. split; [|split; [|split; [lia|reflexivity]]].
      * left. split; [exact H60 | reflexivity].
      * intros b' [[_ H] | [[H _] | [[H | H] _]]]; [exact H| | |].
        -- rewrite (less_not_greater_eq _ _ H60) in H. discriminate.
        -- rewrite (less_below _ (num 60) (num 80) H60 eq_refl) in H.
           discriminate.
        -- rewrite H in Hnan. discriminate.
    + pose proof (not_less_greater_eq fev1 (num 60) Hnan eq_refl H60) as G60.
      destruct (less fev1 (num 80)) eqn:H80.
      * exists 3. split; [|split; [|split; [lia|reflexivity]]].
        -- right. left. repeat split; assumption.
        -- intros b' [[H _] | [[_ [_ H]] | [[H | H] _]]]; [|exact H| |].
           ++ rewrite H in H60. discriminate.
           ++ rewrite (less_not_greater_eq _ _ H80) in H. discriminate.
           ++ rewrite H in Hnan. discriminate.
      * pose proof (not_less_greater_eq fev1 (num 80) Hnan eq_refl H80) as G80.
        exists 1. split; [|split; [|split; [lia|reflexivity]]].
        -- right. right. split; [left; exact G80 | reflexivity].
        -- intros b' [[H _] | [[_ [H _]] | [_ H]]]; [| |exact H].
           ++ rewrite H in H60. discriminate.
           ++ rewrite H in H80. discriminate.
Qed.

End AsthmaBands.

Section AsthmaClaims.

(** C3.  When the three answers are in their tables, the severity computed
    by both variants of [computeAsthmaStage] is the largest of the four
    bands of the specification: the FEV1 band (which every [fev1], absent
    or not, has exactly one of) and the bands of the daytime, nighttime
    and activity answers. *)
Theorem severity_is_max_of_bands
    (fev1 : number) (daytime nighttime activity : string) (bd bn ba : Z) :
  spec_daytime_band daytime = Some bd ->
  spec_nighttime_band nighttime = Some bn ->
  spec_activity_band activity = Some ba ->
  exists bf,
    spec_fev1_band fev1 bf
    /\ (forall b, spec_fev1_band fev1 b -> b = bf)
    /\ (forall inh freq_value p,
           AsthmaJs.severity
             (fst (AsthmaJs.computeAsthmaStage
                     (AsthmaJs.mkInput fev1 daytime nighttime activity
                                       inh freq_value) p))
           = num (Z.max (Z.max bf bd) (Z.max bn ba)))
    /\ (forall inhalers frequency p,
           AsthmaPart001.severity
             (fst (AsthmaPart001.computeAsthmaStage
                     (AsthmaPart001.mkInput fev1 daytime nighttime activity
                                            inhalers frequency) p))
           = num (Z.max (Z.max bf bd) (Z.max bn ba))).
Proof.
  intros Hd Hn Ha.
  destruct (fev1_band_of_code fev1) as [bf [Hf [Huniq [Rf Ef]]]].
  destruct (daytime_contribution _ _ Hd) as [Rd Ed].
  destruct (nighttime_contribution _ _ Hn) as [Rn En].
  destruct (activity_contribution _ _ Ha) as [Ra Ea].
  assert (S : severity_of fev1 daytime nighttime activity
              = num (Z.max (Z.max bf bd) (Z.max bn ba))).
  { unfold severity_of. rewrite Ef, Ed, En, Ea.
    rewrite (Math_max_num bf bd Rf Rd).
    rewrite (Math_max_num (Z.max bf bd) bn) by lia.
    rewrite (Math_max_num (Z.max (Z.max bf bd) bn) ba) by lia.
    f_equal. lia. }
  exists bf. split; [exact Hf|]. split; [exact Huniq|]. split.
  - intros inh freq_value p.
    rewrite (proj1 (asthma_js_result _ p)). exact S.
  - intros inhalers frequency p.
    rewrite (proj1 (asthma_part001_result _ p)). exact S.
Qed.

(** Scenario C: FEV1 85 %, daily daytime symptoms, nothing else: 3. *)
Lemma severity_is_max_of_bands_witness :
  AsthmaJs.severity
    (fst (AsthmaJs.computeAsthmaStage
            (AsthmaJs.mkInput (num 85) "daily" "<=2" "none"
                              (fun _ => None) (fun _ => None))
            fresh_page))
  = num 3.
Proof.
  destruct (severity_is_max_of_bands (num 85) "daily" "<=2" "none" 3 1 1
              eq_refl eq_refl eq_refl)
    as [bf [Hf [_ [Hjs _]]]].
  rewrite Hjs.
  destruct Hf as [[H _] | [[_ [H _]] | [_ ->]]];
    [discriminate H | discriminate H | reflexivity].
Defined.

(** *** Answers outside the tables *)

(** A key that is neither an own property nor inherited reads as
    [undefined], and [|| 1] supplies 1. *)
Lemma default_when_absent (map : object) (key : string) :
  own map key = None -> inherited key = false ->
  contribution map key = Number (num 1).
Proof.
  intros Hown Hinh. unfold contribution, get. rewrite Hown, Hinh. reflexivity.
Qed.

(** A key that is not an own property but is inherited reads as the
    inherited function or object, which [|| 1] keeps. *)
Lemma builtin_when_inherited (map : object) (key : string) :
  own map key = None -> inherited key = true ->
  contribution map key = Builtin key.
Proof.
  intros Hown Hinh. unfold contribution, get. rewrite Hown, Hinh. reflexivity.
Qed.

Lemma four_entries_in_range (k1 k2 k3 k4 key : string) :
  inherited key = false ->
  exists k,
    1 <= k <= 4
    /\ contribution [(k1, num 1); (k2, num 2); (k3, num 3); (k4, num 4)] key
       = Number (num k).
Proof.
  intro Hinh. unfold contribution, get, own.
  destruct (String.eqb k1 key); [exists 1; split; [lia | reflexivity]|].
  destruct (String.eqb k2 key); [exists 2; split; [lia | reflexivity]|].
  destruct (String.eqb k3 key); [exists 3; split; [lia | reflexivity]|].
  destruct (String.eqb k4 key); [exists 4; split; [lia | reflexivity]|].
  rewrite Hinh. exists 1. split; [lia | reflexivity].
Qed.

(** Unless the answer names an inherited property, its contribution is one
    of 1, 2, 3, 4. *)
Lemma contribution_in_range (map : object) (key : string) :
  In map [daytimeMap; nighttimeMap; activityMap] ->
  inherited key = false ->
  exists k, 1 <= k <= 4 /\ contribution map key = Number (num k).
Proof.
  intros Hmap Hinh.
  destruct Hmap as [<- | [<- | [<- | []]]];
    apply four_entries_in_range; exact Hinh.
Qed.

(** Without an inherited name among the answers the severity is one of
    1, 2, 3, 4. *)
Lemma severity_in_range (fev1 : number) (daytime nighttime activity : string) :
  inherited daytime = false -> inherited nighttime = false ->
  inherited activity = false ->
  exists bf bd bn ba,
    1 <= bf <= 4 /\ 1 <= bd <= 4 /\ 1 <= bn <= 4 /\ 1 <= ba <= 4
    /\ fev1_severity fev1 = num bf
    /\ contribution daytimeMap daytime = Number (num bd)
    /\ contribution nighttimeMap nighttime = Number (num bn)
    /\ contribution activityMap activity = Number (num ba)
    /\ severity_of fev1 daytime nighttime activity
       = num (Z.max (Z.max (Z.max bf bd) bn) ba).
Proof.
  intros Hd Hn Ha.
  destruct (fev1_band_of_code fev1) as [bf [_ [_ [Rf Ef]]]].
  destruct (contribution_in_range daytimeMap daytime) as [bd [Rd Ed]];
    [simpl; tauto | exact Hd |].
  destruct (contribution_in_range nighttimeMap nighttime) as [bn [Rn En]];
    [simpl; tauto | exact Hn |].
  destruct (contribution_in_range activityMap activity) as [ba [Ra Ea]];
    [simpl; tauto | exact Ha |].
  exists bf, bd, bn, ba. repeat (split; [assumption|]).
  unfold severity_of. rewrite Ef, Ed, En, Ea.
  rewrite (Math_max_num bf bd Rf Rd).
  rewrite (Math_max_num (Z.max bf bd) bn) by lia.
  rewrite (Math_max_num (Z.max (Z.max bf bd) bn) ba) by lia.
  reflexivity.
Qed.

(** Whatever the severity, NaN included, the [switch] yields one of the
    four names. *)
Lemma stage_name_fixed (severity : number) :
  In (fst (stage_of severity)) stage_names.
Proof.
  unfold stage_of, stage_names.
  destruct (strict_eq severity (num 1)); [simpl; tauto|].
  destruct (strict_eq severity (num 2)); [simpl; tauto|].
  destruct (strict_eq severity (num 3)); [simpl; tauto|].
  destruct (strict_eq severity (num 4)); simpl; tauto.
Qed.

(** So the stage name shown by either variant is always one of the four. *)
Lemma stage_name_of_result
    (i : AsthmaJs.input) (i' : AsthmaPart001.input) (p : page) :
  In (AsthmaJs.stageName (fst (AsthmaJs.computeAsthmaStage i p))) stage_names
  /\ In (AsthmaPart001.stageName (fst (AsthmaPart001.computeAsthmaStage i' p)))
        stage_names.
Proof.
  destruct (asthma_js_result i p) as [_ N].
  destruct (asthma_part001_result i' p) as [_ N'].
  apply (f_equal fst) in N, N'. cbn [fst] in N, N'.
  rewrite N, N'. split; apply stage_name_fixed.
Qed.

(** [>=] on the integers 1 to 4. *)
Lemma greater_eq_num (x y : Z) :
  1 <= x <= 4 -> 1 <= y <= 4 -> greater_eq (num x) (num y) = (y <=? x).
Proof.
  intros Hx Hy.
  assert (Cx : x = 1 \/ x = 2 \/ x = 3 \/ x = 4) by lia.
  assert (Cy : y = 1 \/ y = 2 \/ y = 3 \/ y = 4) by lia.
  destruct Cx as [-> | [-> | [-> | ->]]];
    destruct Cy as [-> | [-> | [-> | ->]]]; reflexivity.
Qed.

(** Without an inherited name among the answers of either input, the
    severity is monotone in the four contributions. *)
Lemma severity_monotone
    (fev1 fev1' : number) (daytime daytime' nighttime nighttime'
                           activity activity' : string) :
  inherited daytime = false -> inherited daytime' = false ->
  inherited nighttime = false -> inherited nighttime' = false ->
  inherited activity = false -> inherited activity' = false ->
  greater_eq (fev1_severity fev1') (fev1_severity fev1) = true ->
  greater_eq (ToNumber (contribution daytimeMap daytime'))
             (ToNumber (contribution daytimeMap daytime)) = true ->
  greater_eq (ToNumber (contribution nighttimeMap nighttime'))
             (ToNumber (contribution nighttimeMap nighttime)) = true ->
  greater_eq (ToNumber (contribution activityMap activity'))
             (ToNumber (contribution activityMap activity)) = true ->
  greater_eq (severity_of fev1' daytime' nighttime' activity')
             (severity_of fev1 daytime nighttime activity) = true.
Proof.
  intros Hd Hd' Hn Hn' Ha Ha'.
  destruct (severity_in_range fev1 daytime nighttime activity Hd Hn Ha)
    as [bf [bd [bn [ba [Rf [Rd [Rn [Ra [Ef [Ed [En [Ea ->]]]]]]]]]]]].
  destruct (severity_in_range fev1' daytime' nighttime' activity' Hd' Hn' Ha')
    as [bf' [bd' [bn' [ba' [Rf' [Rd' [Rn' [Ra' [Ef' [Ed' [En' [Ea' ->]]]]]]]]]]]].
  rewrite Ef, Ef', Ed, Ed', En, En', Ea, Ea'. cbn [ToNumber].
  rewrite !greater_eq_num by lia.
  rewrite !Z.leb_le. lia.
Qed.

Lemma daytime_outside_table (daytime : string) :
  spec_daytime_band daytime = None -> own daytimeMap daytime = None.
Proof.
  unfold spec_daytime_band, daytimeMap, own.
  rewrite (String.eqb_sym "<=2" daytime), (String.eqb_sym "3-6" daytime),
    (String.eqb_sym "daily" daytime), (String.eqb_sym "throughout" daytime).
  destruct (String.eqb daytime "<=2"); [discriminate|].
  destruct (String.eqb daytime "3-6"); [discriminate|].
  destruct (String.eqb daytime "daily"); [discriminate|].
  destruct (String.eqb daytime "throughout"); [discriminate|reflexivity].
Qed.

Lemma nighttime_outside_table (nighttime : string) :
  spec_nighttime_band nighttime = None -> own nighttimeMap nighttime = None.
Proof.
  unfold spec_nighttime_band, nighttimeMap, own.
  rewrite (String.eqb_sym "<=2" nighttime), (String.eqb_sym "3-4" nighttime),
    (String.eqb_sym "5+" nighttime), (String.eqb_sym "often" nighttime).
  destruct (String.eqb nighttime "<=2"); [discriminate|].
  destruct (String.eqb nighttime "3-4"); [discriminate|].
  destruct (String.eqb nighttime "5+"); [discriminate|].
  destruct (String.eqb nighttime "often"); [discriminate|reflexivity].
Qed.

Lemma activity_outside_table (activity : string) :
  spec_activity_band activity = None -> own activityMap activity = None.
Proof.
  unfold spec_activity_band, activityMap, own.
  rewrite (String.eqb_sym "none" activity), (String.eqb_sym "minor" activity),
    (String.eqb_sym "some" activity), (String.eqb_sym "extreme" activity).
  destruct (String.eqb activity "none"); [discriminate|].
  destruct (String.eqb activity "minor"); [discriminate|].
  destruct (String.eqb activity "some"); [discriminate|].
  destruct (String.eqb activity "extreme"); [discriminate|reflexivity].
Qed.

(** Where the fallback works: three answers outside their tables, none of
    them the name of an inherited property, and FEV1 absent or at least 80
    give severity 1. *)
Lemma unrecognized_answers_default
    (fev1 : number) (daytime nighttime activity : string) :
  spec_daytime_band daytime = None -> inherited daytime = false ->
  spec_nighttime_band nighttime = None -> inherited nighttime = false ->
  spec_activity_band activity = None -> inherited activity = false ->
  isNaN fev1 = true \/ greater_eq fev1 (num 80) = true ->
  severity_of fev1 daytime nighttime activity = num 1.
Proof.
  intros Sd Hd Sn Hn Sa Ha Hf.
  unfold severity_of.
  rewrite (default_when_absent _ _ (daytime_outside_table _ Sd) Hd).
  rewrite (default_when_absent _ _ (nighttime_outside_table _ Sn) Hn).
  rewrite (default_when_absent _ _ (activity_outside_table _ Sa) Ha).
  destruct (fev1_band_of_code fev1) as [b [_ [Huniq [_ ->]]]].
  rewrite <- (Huniq 1).
  - reflexivity.
  - right. right. split; [|reflexivity].
    destruct Hf as [Hf | Hf]; [right | left]; exact Hf.
Qed.

(** C4.  The fallback misses the names of inherited properties.  With FEV1
    absent and the three answers "constructor", "toString" and "valueOf",
    all outside their tables, both variants compute the severity NaN, not
    1; one such answer is enough ("constructor" for the daytime, the other
    two answers the mildest of their tables).  An answer such as "weekly"
    does fall back to 1. *)
Theorem inherited_name_is_not_defaulted :
  spec_daytime_band "constructor" = None
  /\ spec_nighttime_band "toString" = None
  /\ spec_activity_band "valueOf" = None
  /\ contribution daytimeMap "constructor" = Builtin "constructor"
  /\ js_outcome NaN "constructor" "toString" "valueOf"
     = (NaN, "Intermittent (Mild) Asthma")
  /\ part001_outcome NaN "constructor" "toString" "valueOf"
     = (NaN, "Intermittent (Mild) Asthma")
  /\ js_outcome NaN "constructor" "<=2" "none"
     = (NaN, "Intermittent (Mild) Asthma")
  /\ part001_outcome NaN "constructor" "<=2" "none"
     = (NaN, "Intermittent (Mild) Asthma")
  /\ NaN <> num 1
  /\ js_outcome NaN "weekly" "<=2" "none"
     = (num 1, "Intermittent (Mild) Asthma").
Proof.
  repeat split; try (vm_compute; reflexivity).
  vm_compute. discriminate.
Qed.

(** C5.  An inherited name breaks the monotonicity.  Changing only the
    daytime answer from "<=2" to "constructor" (band 1 to the default band
    1) takes the severity from 4 to NaN and the stage from severe
    persistent to intermittent.  And with the daytime answer "constructor"
    in both inputs, raising the nighttime answer from "<=2" (band 1) to
    "3-4" (band 2) leaves NaN, of which [>=] does not hold. *)
Theorem inherited_name_breaks_monotonicity :
  band_or_default (spec_daytime_band "<=2") = 1
  /\ band_or_default (spec_daytime_band "constructor") = 1
  /\ js_outcome NaN "<=2" "often" "none" = (num 4, "Severe Persistent Asthma")
  /\ js_outcome NaN "constructor" "often" "none"
     = (NaN, "Intermittent (Mild) Asthma")
  /\ part001_outcome NaN "<=2" "often" "none"
     = (num 4, "Severe Persistent Asthma")
  /\ part001_outcome NaN "constructor" "often" "none"
     = (NaN, "Intermittent (Mild) Asthma")
  /\ greater_eq NaN (num 4) = false
  /\ spec_nighttime_band "<=2" = Some 1
  /\ spec_nighttime_band "3-4" = Some 2
  /\ fst (js_outcome NaN "constructor" "<=2" "none") = NaN
  /\ fst (js_outcome NaN "constructor" "3-4" "none") = NaN
  /\ greater_eq NaN NaN = false.
Proof.
  repeat split; vm_compute; reflexivity.
Qed.

(** C9.  The default branch of the [switch] is reached.  With FEV1 45 %,
    the daytime answer "constructor", nightly symptoms often and activity
    extremely limited, both variants compute the severity NaN, which is
    none of 1, 2, 3, 4, and the [switch] falls to its default: the stage
    name of the mildest stage with the description of the default branch. *)
Theorem inherited_name_reaches_default_branch :
  js_outcome (num 45) "constructor" "often" "extreme"
  = (NaN, "Intermittent (Mild) Asthma")
  /\ part001_outcome (num 45) "constructor" "often" "extreme"
     = (NaN, "Intermittent (Mild) Asthma")
  /\ strict_eq NaN (num 1) = false /\ strict_eq NaN (num 2) = false
  /\ strict_eq NaN (num 3) = false /\ strict_eq NaN (num 4) = false
  /\ AsthmaJs.stageDescription
       (fst (AsthmaJs.computeAsthmaStage
               (AsthmaJs.mkInput (num 45) "constructor" "often" "extreme"
                                 (fun _ => None) (fun _ => None))
               fresh_page))
     = "Symptoms occur infrequently with minimal impact on daily activities."
  /\ AsthmaPart001.stageDescription
       (fst (AsthmaPart001.computeAsthmaStage
               (AsthmaPart001.mkInput (num 45) "constructor" "often" "extreme"
                                      [] "")
               fresh_page))
     = "Symptoms occur infrequently with minimal impact on daily activities.".
Proof.
  repeat split; vm_compute; reflexivity.
Qed.

End AsthmaClaims.

(** * Further properties *)

(** ** The steps of the questionnaire *)

Section WizardProperties.
Import Wizard.

Lemma toggle_from_length (index c : Z) (l : list step) :
  List.length (toggle_from index c l) = List.length l.
Proof.
  revert index. induction l as [|st l IH]; intro index; simpl;
    [reflexivity | rewrite IH; reflexivity].
Qed.

Lemma toggle_from_nth (index c : Z) (l : list step) (k : nat) :
  nth_error (toggle_from index c l) k
  = option_map (fun st => mkStep (index + Z.of_nat k =? c - 1) (fields st))
               (nth_error l k).
Proof.
  revert index k. induction l as [|st l IH]; intros index k.
  - destruct k; reflexivity.
  - destruct k as [|k]; simpl.
    + rewrite Z.add_0_r. reflexivity.
    + rewrite IH. replace (index + 1 + Z.of_nat k) with (index + Z.pos (Pos.of_succ_nat k)) by lia.
      reflexivity.
Qed.

Lemma toggle_from_toggle (index c c' : Z) (l : list step) :
  toggle_from index c' (toggle_from index c l) = toggle_from index c' l.
Proof.
  revert index. induction l as [|st l IH]; intro index; simpl;
    [reflexivity | rewrite IH; reflexivity].
Qed.

(** Past the current step nothing is active. *)
Lemma toggle_from_none (index c : Z) (l : list step) :
  c - 1 < index ->
  find active (toggle_from index c l) = None
  /\ filter active (toggle_from index c l) = [].
Proof.
  revert index. induction l as [|st l IH]; intros index H; simpl.
  - split; reflexivity.
  - replace (index =? c - 1) with false by (symmetry; apply Z.eqb_neq; lia).
    simpl. apply IH. lia.
Qed.

Lemma toggle_from_current (index c : Z) (l : list step) :
  index <= c - 1 < index + Z.of_nat (List.length l) ->
  exists st,
    nth_error l (Z.to_nat (c - 1 - index)) = Some st
    /\ find active (toggle_from index c l) = Some (mkStep true (fields st))
    /\ filter active (toggle_from index c l) = [mkStep true (fields st)].
Proof.
  revert index. induction l as [|st l IH]; intros index H; simpl in *.
  - lia.
  - destruct (Z.eqb_spec index (c - 1)) as [E | E]; simpl.
    + exists st. replace (c - 1 - index) with 0 by lia. simpl.
      repeat split.
      destruct (toggle_from_none (index + 1) c l) as [_ ->]; [lia|].
      reflexivity.
    + destruct (IH (index + 1)) as [st' [Hn [Hf Hl]]]; [lia|].
      exists st'. rewrite Hf, Hl.
      replace (Z.to_nat (c - 1 - index)) with (S (Z.to_nat (c - 1 - (index + 1))))
        by lia.
      simpl. repeat split. exact Hn.
Qed.

Lemma showStep_idempotent (s : state) : showStep (showStep s) = showStep s.
Proof.
  unfold showStep. simpl. rewrite toggle_from_toggle. reflexivity.
Qed.

(** X1.  After [showStep] exactly one step is active when the counter points
    into the list of steps: the step the counter names, with its elements
    as they were; every step keeps its place and its elements. *)
Theorem showStep_marks_current_step (s : state) :
  1 <= currentStep s <= Z.of_nat (List.length (steps s)) ->
  exists st,
    nth_error (steps s) (Z.to_nat (currentStep s - 1)) = Some st
    /\ find active (steps (showStep s)) = Some (mkStep true (fields st))
    /\ filter active (steps (showStep s)) = [mkStep true (fields st)]
    /\ List.length (steps (showStep s)) = List.length (steps s)
    /\ (forall k st',
           nth_error (steps s) k = Some st' ->
           nth_error (steps (showStep s)) k
           = Some (mkStep (Z.of_nat k =? currentStep s - 1) (fields st'))).
Proof.
  intro H. unfold showStep. cbn [steps].
  destruct (toggle_from_current 0 (currentStep s) (steps s)) as [st [Hn [Hf Hl]]];
    [lia|].
  exists st. rewrite Z.sub_0_r in Hn.
  split; [exact Hn|]. split; [exact Hf|]. split; [exact Hl|].
  split; [apply toggle_from_length|].
  intros k st' Hk. rewrite toggle_from_nth, Hk. reflexivity.
Qed.

Lemma showStep_marks_current_step_witness :
  find active (steps (loaded five_steps))
  = Some (mkStep true [mkField false "85"]).
Proof.
  destruct (showStep_marks_current_step
              (mkState 1 five_steps false "" fresh_page))
    as [st [Hn [Hf _]]].
  - simpl. lia.
  - simpl in Hn. injection Hn as <-. exact Hf.
Defined.

(** The loop over the elements of a step: it passes when every required
    element has a value, and otherwise alerts once. *)
Lemma check_inputs_complete (inputs : list field) (p : page) :
  check_inputs inputs p
  = if forallb (fun input => negb (required input) || truthy (value input))
               inputs
    then (true, p)
    else (false, alert required_field_message p).
Proof.
  induction inputs as [|input rest IH]; simpl; [reflexivity|].
  destruct (required input); simpl; [|exact IH].
  destruct (truthy (value input)); simpl; [exact IH | reflexivity].
Qed.

Lemma validate_passes (s : state) :
  fst (validateCurrentStep s) = true -> validateCurrentStep s = (true, s).
Proof.
  unfold validateCurrentStep.
  destruct (find active (steps s)) as [st|]; [|reflexivity].
  rewrite check_inputs_complete.
  destruct (forallb _ (fields st)); simpl; [|discriminate].
  intros _. destruct s; reflexivity.
Qed.

Lemma validate_fails (s : state) :
  fst (validateCurrentStep s) = false ->
  validateCurrentStep s
  = (false, mkState (currentStep s) (steps s) (prevBtn_disabled s)
                    (nextBtn_textContent s)
                    (alert required_field_message (doc s))).
Proof.
  unfold validateCurrentStep.
  destruct (find active (steps s)) as [st|]; [|discriminate].
  rewrite check_inputs_complete.
  destruct (forallb _ (fields st)); simpl; [discriminate|reflexivity].
Qed.

(** [validateCurrentStep] looks at the first active step only: it fails
    exactly when that step has a required element without a value, and
    passes when no step is active. *)
Lemma validate_first_active (s : state) :
  fst (validateCurrentStep s)
  = match find active (steps s) with
    | Some st => step_complete st
    | None => true
    end.
Proof.
  unfold validateCurrentStep, step_complete.
  destruct (find active (steps s)) as [st|]; [|reflexivity].
  rewrite check_inputs_complete.
  destruct (forallb _ (fields st)); reflexivity.
Qed.

(** X2.  While the active step lacks a required answer, Next changes nothing
    but the alerts: the counter, the steps, the buttons and what the page
    displays stay, and one message is shown however many answers are
    missing; [computeAsthmaStage] is not run. *)
Theorem next_blocked_by_missing_answer
    (computeAsthmaStage : page -> page) (s : state) (st : step) :
  find active (steps s) = Some st ->
  step_complete st = false ->
  nextStep computeAsthmaStage s
  = mkState (currentStep s) (steps s) (prevBtn_disabled s)
            (nextBtn_textContent s)
            (alert required_field_message (doc s))
  /\ displayed (doc (nextStep computeAsthmaStage s)) = displayed (doc s)
  /\ alerts (doc (nextStep computeAsthmaStage s))
     = alerts (doc s) ++ [required_field_message].
Proof.
  intros Hf Hc.
  assert (V : fst (validateCurrentStep s) = false).
  { rewrite validate_first_active, Hf. exact Hc. }
  unfold nextStep. rewrite (validate_fails s V). simpl.
  repeat split.
Qed.

Lemma next_blocked_by_missing_answer_witness :
  currentStep
    (nextStep (fun p => p)
       (loaded [mkStep false [mkField true ""; mkField true ""];
                mkStep false []]))
  = 1
  /\ alerts
       (doc (nextStep (fun p => p)
               (loaded [mkStep false [mkField true ""; mkField true ""];
                        mkStep false []])))
     = [required_field_message].
Proof.
  destruct (next_blocked_by_missing_answer
              (fun p => p)
              (loaded [mkStep false [mkField true ""; mkField true ""];
                       mkStep false []])
              (mkStep true [mkField true ""; mkField true ""])
              eq_refl eq_refl) as [E [_ A]].
  split; [rewrite E; reflexivity | exact A].
Defined.

(** X3.  Previous undoes Next: from a state as [showStep] leaves it, before the
    last step, a Next that passes the validation followed by Previous gives
    the state back. *)
Theorem previous_undoes_next
    (computeAsthmaStage : page -> page) (s : state) :
  shown s ->
  1 <= currentStep s < totalSteps ->
  fst (validateCurrentStep s) = true ->
  currentStep (nextStep computeAsthmaStage s) = currentStep s + 1
  /\ prevStep (nextStep computeAsthmaStage s) = s.
Proof.
  intros Hs Hc V. unfold nextStep. rewrite (validate_passes s V).
  cbn [negb].
  replace (currentStep s =? totalSteps) with false
    by (symmetry; apply Z.eqb_neq; lia).
  split; [reflexivity|].
  unfold prevStep. cbn [showStep currentStep steps doc].
  replace (1 <? currentStep s + 1) with true by (symmetry; apply Z.ltb_lt; lia).
  unfold showStep. cbn [currentStep steps doc prevBtn_disabled nextBtn_textContent].
  rewrite toggle_from_toggle.
  replace (currentStep s + 1 - 1) with (currentStep s) by lia.
  exact Hs.
Qed.

Lemma previous_undoes_next_witness :
  prevStep (nextStep (fun p => p) (loaded five_steps)) = loaded five_steps.
Proof.
  apply (previous_undoes_next (fun p => p) (loaded five_steps)).
  - reflexivity.
  - unfold totalSteps. simpl. lia.
  - reflexivity.
Defined.

Lemma nextStep_cases (computeAsthmaStage : page -> page) (s : state) :
  (fst (validateCurrentStep s) = false
   /\ nextStep computeAsthmaStage s
      = mkState (currentStep s) (steps s) (prevBtn_disabled s)
                (nextBtn_textContent s)
                (alert required_field_message (doc s)))
  \/ (fst (validateCurrentStep s) = true
      /\ currentStep s = totalSteps
      /\ nextStep computeAsthmaStage s
         = mkState (currentStep s) (steps s) (prevBtn_disabled s)
                   (nextBtn_textContent s) (computeAsthmaStage (doc s)))
  \/ (fst (validateCurrentStep s) = true
      /\ currentStep s <> totalSteps
      /\ nextStep computeAsthmaStage s
         = showStep (mkState (currentStep s + 1) (steps s) (prevBtn_disabled s)
                             (nextBtn_textContent s) (doc s))).
Proof.
  unfold nextStep.
  destruct (fst (validateCurrentStep s)) eqn:V.
  - right. rewrite (validate_passes s V). cbn [negb].
    destruct (Z.eqb_spec (currentStep s) totalSteps) as [E | E].
    + left. repeat split. exact E.
    + right. repeat split. exact E.
  - left. rewrite (validate_fails s V). split; reflexivity.
Qed.

Lemma shown_showStep (s : state) : shown (showStep s).
Proof. apply showStep_idempotent. Qed.

Lemma shown_with_doc (s : state) (p : page) :
  shown s ->
  shown (mkState (currentStep s) (steps s) (prevBtn_disabled s)
                 (nextBtn_textContent s) p).
Proof.
  unfold shown, showStep. cbn [currentStep steps doc].
  intro H. destruct s as [c l pd nt d]. cbn in *.
  injection H as H1 H2 H3. rewrite H1, H2, H3. reflexivity.
Qed.

Lemma press_keeps (computeAsthmaStage : page -> page) (b : press) (s : state) :
  1 <= currentStep s <= totalSteps -> shown s ->
  1 <= currentStep (press_button computeAsthmaStage b s) <= totalSteps
  /\ shown (press_button computeAsthmaStage b s)
  /\ steps (press_button computeAsthmaStage b s)
     = toggle_from 0 (currentStep (press_button computeAsthmaStage b s)) (steps s).
Proof.
  intros Hc Hs.
  assert (Hsteps : steps s = toggle_from 0 (currentStep s) (steps s)).
  { unfold shown in Hs. apply (f_equal steps) in Hs. symmetry. exact Hs. }
  destruct b; cbn [press_button].
  - destruct (nextStep_cases computeAsthmaStage s)
      as [[_ ->] | [[_ [_ ->]] | [_ [E ->]]]].
    + cbn [currentStep steps]. split; [exact Hc|].
      split; [apply shown_with_doc; exact Hs | exact Hsteps].
    + cbn [currentStep steps]. split; [exact Hc|].
      split; [apply shown_with_doc; exact Hs | exact Hsteps].
    + split; [cbn; lia|]. split; [apply shown_showStep | reflexivity].
  - unfold prevStep. destruct (Z.ltb_spec 1 (currentStep s)).
    + split; [cbn; lia|]. split; [apply shown_showStep | reflexivity].
    + split; [exact Hc|]. split; [exact Hs | exact Hsteps].
Qed.

(** X4.  Whatever buttons are pressed, in whatever order, the counter stays
    between 1 and [totalSteps]; the steps keep their number and their
    elements, the one the counter names being marked active; and the
    buttons agree with the counter: Previous is disabled exactly on step 1
    and Next reads "Submit" exactly on the last step. *)
Theorem counter_stays_in_range
    (computeAsthmaStage : page -> page) (bs : list press) (s : state) :
  1 <= currentStep s <= totalSteps ->
  shown s ->
  let s' := presses computeAsthmaStage bs s in
  1 <= currentStep s' <= totalSteps
  /\ steps s' = toggle_from 0 (currentStep s') (steps s)
  /\ prevBtn_disabled s' = (currentStep s' =? 1)
  /\ nextBtn_textContent s'
     = (if currentStep s' =? totalSteps then "Submit" else "Next").
Proof.
  revert s. induction bs as [|b bs IH]; intros s Hc Hs; cbn [presses].
  - cbv zeta. unfold shown in Hs.
    split; [exact Hc|].
    split; [apply (f_equal steps) in Hs; symmetry; exact Hs|].
    split; [apply (f_equal prevBtn_disabled) in Hs; symmetry; exact Hs|].
    apply (f_equal nextBtn_textContent) in Hs; symmetry; exact Hs.
  - destruct (press_keeps computeAsthmaStage b s Hc Hs) as [Hc' [Hs' Hst]].
    specialize (IH _ Hc' Hs'). cbv zeta in *.
    destruct IH as [I1 [I2 [I3 I4]]].
    split; [exact I1|]. split; [|split; assumption].
    rewrite I2, Hst. apply toggle_from_toggle.
Qed.

Lemma counter_stays_in_range_witness :
  1 <= currentStep
         (presses (fun p => p)
                  [Previous; Next; Next; Next; Next; Next; Next; Previous]
                  (loaded five_steps))
    <= totalSteps.
Proof.
  assert (H : 1 <= currentStep (loaded five_steps) <= totalSteps)
    by (unfold totalSteps; simpl; lia).
  pose proof (counter_stays_in_range
                (fun p => p)
                [Previous; Next; Next; Next; Next; Next; Next; Previous]
                (loaded five_steps) H eq_refl) as K.
  cbv zeta in K. exact (proj1 K).
Defined.

Lemma press_keeps_display
    (computeAsthmaStage : page -> page) (b : press) (s : state) :
  currentStep s < totalSteps
  \/ b = Previous ->
  displayed (doc (press_button computeAsthmaStage b s)) = displayed (doc s)
  /\ currentStep (press_button computeAsthmaStage b s)
     <= currentStep s + match b with Next => 1 | Previous => 0 end.
Proof.
  intro H. destruct b; cbn [press_button].
  - destruct H as [H | H]; [|discriminate].
    destruct (nextStep_cases computeAsthmaStage s)
      as [[_ ->] | [[_ [E _]] | [_ [_ ->]]]].
    + cbn. split; [reflexivity | lia].
    + lia.
    + cbn. split; [reflexivity | lia].
  - unfold prevStep. destruct (Z.ltb_spec 1 (currentStep s)); cbn;
      (split; [reflexivity | lia]).
Qed.

(** X5.  The report cannot appear early: as long as the counter plus the number
    of presses of Next does not exceed [totalSteps], what the page
    displays is untouched.  From the first step that means at least five
    presses of Next. *)
Theorem report_needs_all_steps
    (computeAsthmaStage : page -> page) (bs : list press) (s : state) :
  currentStep s + count_next bs <= totalSteps ->
  displayed (doc (presses computeAsthmaStage bs s)) = displayed (doc s).
Proof.
  revert s. induction bs as [|b bs IH]; intros s H; cbn [presses].
  - reflexivity.
  - assert (Hb : count_next (b :: bs)
                 = count_next bs + match b with Next => 1 | Previous => 0 end).
    { unfold count_next. destruct b; cbn [filter List.length]; lia. }
    assert (Hn : 0 <= count_next bs) by (unfold count_next; lia).
    destruct (press_keeps_display computeAsthmaStage b s) as [D C].
    { destruct b; [left; lia | right; reflexivity]. }
    rewrite IH; [exact D|]. lia.
Qed.

Lemma report_needs_all_steps_witness :
  displayed
    (doc (presses (fun p => show_result [] p)
                  [Next; Next; Previous; Next; Next] (loaded five_steps)))
  = displayed fresh_page.
Proof.
  apply (report_needs_all_steps
           (fun p => show_result [] p)
           [Next; Next; Previous; Next; Next] (loaded five_steps)).
  unfold totalSteps. simpl. lia.
Defined.

(** X6.  On the last step a Next that passes the validation runs
    [computeAsthmaStage] of the file on the page and leaves the counter,
    the steps and the buttons alone: the form is hidden, the report of the
    values in the form is shown, and no message appears.  In src/asthma.js
    the new download button has one click listener, whatever listeners the
    page had; src/unnamed/part_001 has no such button. *)
Theorem submit_shows_report
    (form : AsthmaJs.input) (form' : AsthmaPart001.input) (s : state) :
  currentStep s = totalSteps ->
  fst (validateCurrentStep s) = true ->
  asthma_js_nextStep form s
  = mkState (currentStep s) (steps s) (prevBtn_disabled s)
            (nextBtn_textContent s)
            (snd (AsthmaJs.computeAsthmaStage form (doc s)))
  /\ part001_nextStep form' s
     = mkState (currentStep s) (steps s) (prevBtn_disabled s)
               (nextBtn_textContent s)
               (snd (AsthmaPart001.computeAsthmaStage form' (doc s)))
  /\ form_display (doc (asthma_js_nextStep form s)) = "none"
  /\ result_display (doc (asthma_js_nextStep form s)) = "block"
  /\ result_innerHTML (doc (asthma_js_nextStep form s))
     = AsthmaJs.resultHtml (fst (AsthmaJs.computeAsthmaStage form (doc s)))
  /\ alerts (doc (asthma_js_nextStep form s)) = alerts (doc s)
  /\ download_listeners (doc (asthma_js_nextStep form s))
     = [downloadAsthmaReportPDF]
  /\ form_display (doc (part001_nextStep form' s)) = "none"
  /\ result_display (doc (part001_nextStep form' s)) = "block"
  /\ result_innerHTML (doc (part001_nextStep form' s))
     = AsthmaPart001.resultHtml
         (fst (AsthmaPart001.computeAsthmaStage form' (doc s)))
  /\ alerts (doc (part001_nextStep form' s)) = alerts (doc s)
  /\ download_listeners (doc (part001_nextStep form' s)) = [].
Proof.
  intros Hc V.
  assert (J : asthma_js_nextStep form s
              = mkState (currentStep s) (steps s) (prevBtn_disabled s)
                        (nextBtn_textContent s)
                        (snd (AsthmaJs.computeAsthmaStage form (doc s)))).
  { unfold asthma_js_nextStep, nextStep. rewrite (validate_passes s V).
    cbn [negb]. rewrite Hc. reflexivity. }
  assert (P : part001_nextStep form' s
              = mkState (currentStep s) (steps s) (prevBtn_disabled s)
                        (nextBtn_textContent s)
                        (snd (AsthmaPart001.computeAsthmaStage form' (doc s)))).
  { unfold part001_nextStep, nextStep. rewrite (validate_passes s V).
    cbn [negb]. rewrite Hc. reflexivity. }
  rewrite J, P. cbn [doc].
  split; [reflexivity|]. split; [reflexivity|].
  unfold AsthmaJs.computeAsthmaStage, AsthmaPart001.computeAsthmaStage.
  cbv zeta.
  repeat match goal with
         | |- context [let '(_, _) := ?E in _] => destruct E as [? ?]
         end.
  repeat split.
Qed.

Lemma submit_shows_report_witness :
  form_display
    (doc (asthma_js_nextStep
            sample_asthma_form
            (showStep (mkState 5 five_steps false "" fresh_page))))
  = "none".
Proof.
  destruct (submit_shows_report
              sample_asthma_form sample_part001_form
              (showStep (mkState 5 five_steps false "" fresh_page))
              eq_refl eq_refl) as [_ [_ [H _]]].
  exact H.
Defined.

End WizardProperties.

(** ** COPD: order, radios, page *)

Section CopdFurther.
Import CopdForm.

Lemma SFleb_trans (x y z : number) :
  SFleb x y = true -> SFleb y z = true -> SFleb x z = true.
Proof.
  unfold SFleb.
  destruct x as [[|]|[|]| |[|] ? ?], y as [[|]|[|]| |[|] ? ?],
           z as [[|]|[|]| |[|] ? ?];
    simpl; try discriminate; try reflexivity;
    change (PosDef.Pos.compare_cont Eq) with Pos.compare;
    repeat match goal with
           | |- context [Z.compare ?a ?b] => destruct (Z.compare_spec a b)
           | |- context [Pos.compare ?a ?b] => destruct (Pos.compare_spec a b)
           end;
    simpl; try discriminate; try reflexivity; intros; exfalso; subst; lia.
Qed.

Lemma greater_eq_trans (x y z : number) :
  greater_eq x y = true -> greater_eq y z = true -> greater_eq x z = true.
Proof. unfold greater_eq. intros Hxy Hyz. exact (SFleb_trans z y x Hyz Hxy). Qed.

Lemma gold_name_rank (f : number) : 1 <= gold_rank (gold_name f) <= 4.
Proof.
  unfold gold_name.
  destruct (greater_eq f (num 80)); [vm_compute; split; discriminate|].
  destruct (greater_eq f (num 50)); [vm_compute; split; discriminate|].
  destruct (greater_eq f (num 30)); vm_compute; split; discriminate.
Qed.

(** X7.  A higher FEV1 never gives a worse grade: of two inputs that pass the
    validation, the one whose [fev1percent] is [>=] the other's gets a
    grade at least as mild, in both variants. *)
Theorem higher_fev1_never_worse_grade
    (i1 i2 : input) (p q : page) (g1 g2 : string) :
  filled i1 = true -> filled i2 = true ->
  greater_eq (fev1percent i2) (fev1percent i1) = true ->
  grades i1 p g1 -> grades i2 q g2 ->
  1 <= gold_rank g2 <= gold_rank g1 /\ gold_rank g1 <= 4.
Proof.
  intros H1 H2 Hge G1 G2.
  destruct (copd_classified i1 p H1) as [m1 [_ [G1' _]]].
  destruct (copd_classified i2 q H2) as [m2 [_ [G2' _]]].
  rewrite (grades_unique _ _ _ _ G1 G1'), (grades_unique _ _ _ _ G2 G2').
  pose proof (gold_name_rank (fev1percent i1)) as R1.
  pose proof (gold_name_rank (fev1percent i2)) as R2.
  split; [split; [lia|] | lia].
  unfold gold_name in *.
  destruct (greater_eq (fev1percent i1) (num 80)) eqn:A80.
  { rewrite (greater_eq_trans _ _ _ Hge A80). vm_compute. discriminate. }
  destruct (greater_eq (fev1percent i1) (num 50)) eqn:A50.
  { rewrite (greater_eq_trans _ _ _ Hge A50).
    destruct (greater_eq (fev1percent i2) (num 80)); vm_compute; discriminate. }
  destruct (greater_eq (fev1percent i1) (num 30)) eqn:A30.
  { rewrite (greater_eq_trans _ _ _ Hge A30).
    destruct (greater_eq (fev1percent i2) (num 80));
      [vm_compute; discriminate|].
    destruct (greater_eq (fev1percent i2) (num 50)); vm_compute; discriminate. }
  change (gold_rank GOLD_4) with 4. lia.
Qed.

Lemma scenarios_classified :
  grades scenario_A fresh_page GOLD_2 /\ groups scenario_A fresh_page Group_A
  /\ grades scenario_B fresh_page GOLD_3 /\ groups scenario_B fresh_page Group_E.
Proof.
  destruct (copd_classified scenario_A fresh_page eq_refl) as [mA [MA [GA AA]]].
  destruct (copd_classified scenario_B fresh_page eq_refl) as [mB [MB [GB AB]]].
  injection MA as <-. injection MB as <-.
  split; [exact GA|]. split; [exact AA|]. split; [exact GB | exact AB].
Qed.

Lemma higher_fev1_never_worse_grade_witness :
  1 <= gold_rank GOLD_2 <= gold_rank GOLD_3 /\ gold_rank GOLD_3 <= 4.
Proof.
  apply (higher_fev1_never_worse_grade scenario_B scenario_A fresh_page fresh_page
           GOLD_3 GOLD_2 eq_refl eq_refl eq_refl).
  - exact (proj1 (proj2 (proj2 scenarios_classified))).
  - exact (proj1 scenarios_classified).
Defined.

Lemma abe_name_rank (h e m : number) : 1 <= abe_rank (abe_name h e m) <= 3.
Proof.
  unfold abe_name.
  destruct (greater_eq h (num 1) || greater_eq e (num 2));
    [vm_compute; split; discriminate|].
  destruct (greater_eq m (num 2)); vm_compute; split; discriminate.
Qed.

(** X8.  More risk never gives a lower group: of two inputs that pass the
    validation, the one with hospitalizations, exacerbations and mMRC
    score each [>=] the other's gets a group at least as high on the
    scale A, B, E, in both variants. *)
Theorem more_risk_never_lower_group
    (i1 i2 : input) (p q : page) (m1 m2 : number) (a1 a2 : string) :
  filled i1 = true -> filled i2 = true ->
  mmrc_of (mmrcInputs i1) = Some m1 -> mmrc_of (mmrcInputs i2) = Some m2 ->
  greater_eq (hospitalizations i2) (hospitalizations i1) = true ->
  greater_eq (exacerbations i2) (exacerbations i1) = true ->
  greater_eq m2 m1 = true ->
  groups i1 p a1 -> groups i2 q a2 ->
  1 <= abe_rank a1 <= abe_rank a2 /\ abe_rank a2 <= 3.
Proof.
  intros H1 H2 M1 M2 Hh He Hm A1 A2.
  destruct (copd_classified i1 p H1) as [m1' [M1' [_ A1']]].
  destruct (copd_classified i2 q H2) as [m2' [M2' [_ A2']]].
  rewrite M1 in M1'. injection M1' as <-.
  rewrite M2 in M2'. injection M2' as <-.
  rewrite (groups_unique _ _ _ _ A1 A1'), (groups_unique _ _ _ _ A2 A2').
  pose proof (abe_name_rank (hospitalizations i1) (exacerbations i1) m1) as R1.
  pose proof (abe_name_rank (hospitalizations i2) (exacerbations i2) m2) as R2.
  split; [split; [lia|] | lia].
  unfold abe_name in *.
  destruct (greater_eq (hospitalizations i1) (num 1)) eqn:Ah.
  { rewrite (greater_eq_trans _ _ _ Hh Ah). vm_compute. discriminate. }
  destruct (greater_eq (exacerbations i1) (num 2)) eqn:Ae.
  { rewrite (greater_eq_trans _ _ _ He Ae), !orb_true_r. vm_compute. discriminate. }
  cbn [orb] in *.
  destruct (greater_eq m1 (num 2)) eqn:Am.
  { rewrite (greater_eq_trans _ _ _ Hm Am).
    destruct (greater_eq (hospitalizations i2) (num 1)
              || greater_eq (exacerbations i2) (num 2));
      vm_compute; discriminate. }
  change (abe_rank Group_A) with 1. lia.
Qed.

Lemma more_risk_never_lower_group_witness :
  1 <= abe_rank Group_A <= abe_rank Group_E /\ abe_rank Group_E <= 3.
Proof.
  apply (more_risk_never_lower_group scenario_A scenario_B fresh_page fresh_page
           (num 1) (num 3) Group_A Group_E
           eq_refl eq_refl eq_refl eq_refl eq_refl eq_refl eq_refl).
  - exact (proj1 (proj2 scenarios_classified)).
  - exact (proj2 (proj2 (proj2 scenarios_classified))).
Defined.

Lemma mmrc_of_app (l1 l2 : list radio) :
  mmrc_of (l1 ++ l2)
  = match mmrc_of l2 with
    | Some m => Some m
    | None => mmrc_of l1
    end.
Proof.
  unfold mmrc_of at 1. rewrite fold_left_app.
  fold (mmrc_of l1). apply mmrc_of_from.
Qed.

(** X9.  When several mMRC radios are checked the last one counts: the score is
    the value of the last checked radio, whatever comes before it; with no
    radio checked after it, a checked radio gives the score. *)
Theorem last_checked_radio_wins (before after : list radio) (r : radio) :
  checked r = true ->
  existsb checked after = false ->
  mmrc_of (before ++ r :: after) = Some (value r).
Proof.
  intros Hr Ha.
  rewrite mmrc_of_app.
  change (r :: after) with ([r] ++ after). rewrite mmrc_of_app.
  rewrite (mmrc_of_unchecked after Ha).
  unfold mmrc_of. simpl. rewrite Hr. reflexivity.
Qed.

Lemma last_checked_radio_wins_witness :
  mmrc_of [mkRadio true (num 0); mkRadio false (num 1); mkRadio true (num 3);
           mkRadio false (num 4)]
  = Some (num 3).
Proof.
  exact (last_checked_radio_wins
           [mkRadio true (num 0); mkRadio false (num 1)]
           [mkRadio false (num 4)] (mkRadio true (num 3)) eq_refl eq_refl).
Defined.

Lemma copd_report_replaces_form_aux (i : input) (p : page) :
  filled i = true ->
  (exists r,
      CopdJs.computeCOPD i p
      = (Some r, mkPage "none" (CopdJs.resultHtml r) "block" true [] (alerts p)))
  /\ (exists r,
         CopdPart000.computeCOPD i p
         = (Some r,
            mkPage "none" (CopdPart000.resultHtml r) "block" true
                   [downloadCopdReportPDF] (alerts p))).
Proof.
  intro H. destruct (filled_guard i H) as [Hn [m Hm]].
  unfold CopdJs.computeCOPD, CopdPart000.computeCOPD.
  rewrite Hn, Hm. cbv zeta.
  match goal with
  | |- context [let '(_, _) := ?E in _] => destruct E as [g d]
  end.
  match goal with
  | |- context [let '(_, _) := ?E in _] => destruct E as [a ad]
  end.
  split.
  - eexists (CopdJs.mkResult g d a ad _). reflexivity.
  - eexists (CopdPart000.mkResult g d a ad _ _). reflexivity.
Qed.

(** X10.  A successful run replaces what the page shows, whatever it showed: the
    form is hidden, the result container holds the new report, is visible
    and scrolled to, and no message is added.  The report of
    src/unnamed/part_000 has one click listener on its download button,
    however many runs came before; src/copd.js has none. *)
Theorem copd_report_replaces_form (i : input) (p : page) :
  filled i = true ->
  (exists r,
      CopdJs.computeCOPD i p
      = (Some r, mkPage "none" (CopdJs.resultHtml r) "block" true [] (alerts p)))
  /\ (exists r,
         CopdPart000.computeCOPD i p
         = (Some r,
            mkPage "none" (CopdPart000.resultHtml r) "block" true
                   [downloadCopdReportPDF] (alerts p)))
  /\ (forall i', filled i' = true ->
         download_listeners
           (snd (CopdPart000.computeCOPD i' (snd (CopdPart000.computeCOPD i p))))
         = [downloadCopdReportPDF]).
Proof.
  intro H.
  destruct (copd_report_replaces_form_aux i p H) as [H0 H1].
  split; [exact H0|]. split; [exact H1|].
  intros i' H'.
  destruct (copd_report_replaces_form_aux
              i' (snd (CopdPart000.computeCOPD i p)) H') as [_ [r' E]].
  rewrite E. reflexivity.
Qed.

Lemma copd_report_replaces_form_witness :
  download_listeners
    (snd (CopdPart000.computeCOPD
            scenario_B (snd (CopdPart000.computeCOPD scenario_A fresh_page))))
  = [downloadCopdReportPDF].
Proof.
  exact (proj2 (proj2 (copd_report_replaces_form scenario_A fresh_page eq_refl))
           scenario_B eq_refl).
Defined.

Lemma greater_eq_not_NaN_right (x y : number) :
  greater_eq x y = true -> isNaN y = false.
Proof. destruct x, y; simpl; try reflexivity; discriminate. Qed.

(** X11.  The sentence that ends the diagnostic-criterion paragraph follows the
    ratio, with 0.70 itself on the normal side: on every input that passes
    the validation the report of both variants starts with the heading,
    the opening of the paragraph and the ratio to two decimals, then the
    below-threshold sentence when [ratio < 0.7] and the normal sentence
    when [ratio >= 0.7]; one of the two tests holds. *)
Theorem diagnostic_sentence_by_ratio (i : input) (p : page) :
  filled i = true ->
  exists sentence r0 p0 rest0 r1 p1 rest1,
    CopdJs.computeCOPD i p = (Some r0, p0)
    /\ CopdJs.resultHtml r0
       = Lit "<h2>Results</h2>"
         :: Lit "<p><strong>Diagnostic Criterion:</strong> Your FEV<sub>1</sub>/FVC ratio is "
         :: ToFixed (ratio i) 2 :: Lit sentence :: rest0
    /\ CopdPart000.computeCOPD i p = (Some r1, p1)
    /\ CopdPart000.resultHtml r1
       = Lit "<h2>Results</h2>"
         :: Lit "<p><strong>Diagnostic Criterion:</strong> Your FEV<sub>1</sub>/FVC ratio is "
         :: ToFixed (ratio i) 2 :: Lit sentence :: rest1
    /\ (less (ratio i) lit_0_7 = true -> sentence = below_threshold_sentence)
    /\ (greater_eq (ratio i) lit_0_7 = true -> sentence = normal_sentence)
    /\ (ratio i = lit_0_7 -> sentence = normal_sentence)
    /\ (less (ratio i) lit_0_7 = true \/ greater_eq (ratio i) lit_0_7 = true).
Proof.
  intro H. destruct (filled_guard i H) as [Hn [m Hm]].
  assert (Hr : isNaN (ratio i) = false).
  { destruct (isNaN (ratio i)); [discriminate Hn | reflexivity]. }
  exists (if less (ratio i) lit_0_7 then below_threshold_sentence
          else normal_sentence).
  unfold CopdJs.computeCOPD, CopdPart000.computeCOPD.
  rewrite Hn, Hm. cbv zeta.
  match goal with
  | |- context [let '(_, _) := ?E in _] => destruct E as [g d]
  end.
  match goal with
  | |- context [let '(_, _) := ?E in _] => destruct E as [a ad]
  end.
  rewrite <- !app_assoc.
  destruct (less (ratio i) lit_0_7) eqn:L.
  - eexists (CopdJs.mkResult g d a ad _), _, _,
            (CopdPart000.mkResult g d a ad _ _), _, _.
    split; [reflexivity|]. split; [reflexivity|].
    split; [reflexivity|]. split; [reflexivity|].
    split; [reflexivity|].
    split; [intro G; rewrite (less_not_greater_eq _ _ L) in G; discriminate|].
    split; [intro E; rewrite E in L; discriminate L|].
    left. reflexivity.
  - eexists (CopdJs.mkResult g d a ad _), _, _,
            (CopdPart000.mkResult g d a ad _ _), _, _.
    split; [reflexivity|]. split; [reflexivity|].
    split; [reflexivity|]. split; [reflexivity|].
    split; [discriminate|].
    split; [reflexivity|].
    split; [reflexivity|].
    right. exact (not_less_greater_eq _ lit_0_7 Hr eq_refl L).
Qed.

Lemma diagnostic_sentence_by_ratio_witness :
  exists r0 p0 rest0,
    CopdJs.computeCOPD
      (mkInput lit_0_7 (num 55) (num 1) (num 0) (mmrc_radios 1) [] "")
      fresh_page
    = (Some r0, p0)
    /\ CopdJs.resultHtml r0
       = Lit "<h2>Results</h2>"
         :: Lit "<p><strong>Diagnostic Criterion:</strong> Your FEV<sub>1</sub>/FVC ratio is "
         :: ToFixed lit_0_7 2 :: Lit normal_sentence :: rest0.
Proof.
  destruct (diagnostic_sentence_by_ratio
              (mkInput lit_0_7 (num 55) (num 1) (num 0) (mmrc_radios 1) [] "")
              fresh_page eq_refl)
    as [sentence [r0 [p0 [rest0 [r1 [p1 [rest1 [E0 [H0 [_ [_ [_ [_ [Heq _]]]]]]]]]]]]]].
  exists r0, p0, rest0. split; [exact E0|].
  rewrite <- (Heq eq_refl). exact H0.
Defined.

End CopdFurther.

(** ** Asthma: inherited names, default bands, FEV1 *)

Section AsthmaFurther.

Lemma four_entries_not_inherited (k1 k2 k3 k4 key : string) (o : object) :
  o = [(k1, num 1); (k2, num 2); (k3, num 3); (k4, num 4)] ->
  inherited k1 = false -> inherited k2 = false ->
  inherited k3 = false -> inherited k4 = false ->
  inherited key = true -> own o key = None.
Proof.
  intros -> H1 H2 H3 H4 H. unfold own.
  destruct (String.eqb_spec k1 key); [congruence|].
  destruct (String.eqb_spec k2 key); [congruence|].
  destruct (String.eqb_spec k3 key); [congruence|].
  destruct (String.eqb_spec k4 key); [congruence|reflexivity].
Qed.

(** No key of the three maps is the name of an inherited property. *)
Lemma inherited_not_own (map : object) (key : string) :
  In map [daytimeMap; nighttimeMap; activityMap] ->
  inherited key = true ->
  contribution map key = Builtin key.
Proof.
  intros Hmap H. apply builtin_when_inherited; [|exact H].
  destruct Hmap as [<- | [<- | [<- | []]]];
    eapply four_entries_not_inherited; try reflexivity; exact H.
Qed.

Lemma Math_max_builtin (v : value) (key : string) :
  Math_max v (Builtin key) = NaN.
Proof.
  unfold Math_max, max_number. cbn [ToNumber isNaN NaN].
  rewrite orb_true_r. reflexivity.
Qed.

Lemma Math_max_NaN_left (v : value) : Math_max (Number NaN) v = NaN.
Proof. reflexivity. Qed.

Lemma num_not_NaN (k : Z) : 1 <= k <= 4 -> num k <> NaN.
Proof.
  intro H. assert (C : k = 1 \/ k = 2 \/ k = 3 \/ k = 4) by lia.
  destruct C as [-> | [-> | [-> | ->]]]; discriminate.
Qed.

Lemma severity_of_NaN (fev1 : number) (daytime nighttime activity : string) :
  severity_of fev1 daytime nighttime activity = NaN
  <-> inherited daytime || inherited nighttime || inherited activity = true.
Proof.
  split.
  - intro H.
    destruct (inherited daytime) eqn:Hd; [reflexivity|].
    destruct (inherited nighttime) eqn:Hn; [reflexivity|].
    destruct (inherited activity) eqn:Ha; [reflexivity|].
    destruct (severity_in_range fev1 daytime nighttime activity Hd Hn Ha)
      as [bf [bd [bn [ba [Rf [Rd [Rn [Ra [_ [_ [_ [_ E]]]]]]]]]]]].
    rewrite E in H. exfalso. revert H. apply num_not_NaN. lia.
  - intro H. unfold severity_of.
    destruct (inherited activity) eqn:Ha.
    + rewrite (inherited_not_own activityMap activity) by (simpl; tauto).
      apply Math_max_builtin.
    + destruct (inherited nighttime) eqn:Hn.
      * rewrite (inherited_not_own nighttimeMap nighttime) by (simpl; tauto).
        rewrite Math_max_builtin. reflexivity.
      * destruct (inherited daytime) eqn:Hd; [|discriminate H].
        rewrite (inherited_not_own daytimeMap daytime) by (simpl; tauto).
        rewrite Math_max_builtin. reflexivity.
Qed.

(** X12.  The severity is NaN exactly when one of the three answers is the name
    of a property inherited from [Object.prototype]; the report then names
    the mildest stage, with the description of the default branch,
    whatever FEV1 and the other answers are.  So in both variants. *)
Theorem severity_NaN_exactly_for_inherited_names
    (fev1 : number) (daytime nighttime activity : string)
    (inh : string -> option AsthmaJs.checkbox)
    (freq_value : string -> option string)
    (inhalers : list string) (frequency : string) (p q : page) :
  let r0 :=
    fst (AsthmaJs.computeAsthmaStage
           (AsthmaJs.mkInput fev1 daytime nighttime activity inh freq_value) p) in
  let r1 :=
    fst (AsthmaPart001.computeAsthmaStage
           (AsthmaPart001.mkInput fev1 daytime nighttime activity
                                  inhalers frequency) q) in
  (AsthmaJs.severity r0 = NaN
   <-> inherited daytime || inherited nighttime || inherited activity = true)
  /\ (AsthmaPart001.severity r1 = NaN
      <-> inherited daytime || inherited nighttime || inherited activity = true)
  /\ (inherited daytime || inherited nighttime || inherited activity = true ->
      AsthmaJs.stageName r0 = "Intermittent (Mild) Asthma"
      /\ AsthmaJs.stageDescription r0 = default_stage_description
      /\ AsthmaPart001.stageName r1 = "Intermittent (Mild) Asthma"
      /\ AsthmaPart001.stageDescription r1 = default_stage_description).
Proof.
  cbv zeta.
  destruct (asthma_js_result
              (AsthmaJs.mkInput fev1 daytime nighttime activity inh freq_value) p)
    as [S0 N0].
  destruct (asthma_part001_result
              (AsthmaPart001.mkInput fev1 daytime nighttime activity
                                     inhalers frequency) q)
    as [S1 N1].
  cbn [AsthmaJs.fev1 AsthmaJs.daytime AsthmaJs.nighttime AsthmaJs.activity
       AsthmaPart001.fev1 AsthmaPart001.daytime AsthmaPart001.nighttime
       AsthmaPart001.activity] in *.
  rewrite S0 in N0. rewrite S1 in N1. rewrite S0, S1.
  split; [apply severity_of_NaN|]. split; [apply severity_of_NaN|].
  intro H. apply (proj2 (severity_of_NaN fev1 daytime nighttime activity)) in H.
  rewrite H in N0, N1.
  injection N0 as -> ->. injection N1 as -> ->.
  repeat split.
Qed.

Lemma severity_NaN_exactly_for_inherited_names_witness :
  AsthmaJs.stageName
    (fst (AsthmaJs.computeAsthmaStage
            (AsthmaJs.mkInput (num 45) "often" "hasOwnProperty" "extreme"
                              (fun _ => None) (fun _ => None))
            fresh_page))
  = "Intermittent (Mild) Asthma".
Proof.
  exact (proj1 (proj2 (proj2
           (severity_NaN_exactly_for_inherited_names
              (num 45) "often" "hasOwnProperty" "extreme"
              (fun _ => None) (fun _ => None) [] "" fresh_page fresh_page))
           eq_refl)).
Defined.

Lemma daytime_default_band (daytime : string) :
  inherited daytime = false ->
  1 <= band_or_default (spec_daytime_band daytime) <= 4
  /\ contribution daytimeMap daytime
     = Number (num (band_or_default (spec_daytime_band daytime))).
Proof.
  intro H. destruct (spec_daytime_band daytime) as [b|] eqn:E; cbn [band_or_default].
  - exact (daytime_contribution daytime b E).
  - split; [lia|]. exact (default_when_absent _ _ (daytime_outside_table _ E) H).
Qed.

Lemma nighttime_default_band (nighttime : string) :
  inherited nighttime = false ->
  1 <= band_or_default (spec_nighttime_band nighttime) <= 4
  /\ contribution nighttimeMap nighttime
     = Number (num (band_or_default (spec_nighttime_band nighttime))).
Proof.
  intro H. destruct (spec_nighttime_band nighttime) as [b|] eqn:E;
    cbn [band_or_default].
  - exact (nighttime_contribution nighttime b E).
  - split; [lia|]. exact (default_when_absent _ _ (nighttime_outside_table _ E) H).
Qed.

Lemma activity_default_band (activity : string) :
  inherited activity = false ->
  1 <= band_or_default (spec_activity_band activity) <= 4
  /\ contribution activityMap activity
     = Number (num (band_or_default (spec_activity_band activity))).
Proof.
  intro H. destruct (spec_activity_band activity) as [b|] eqn:E;
    cbn [band_or_default].
  - exact (activity_contribution activity b E).
  - split; [lia|]. exact (default_when_absent _ _ (activity_outside_table _ E) H).
Qed.

Lemma num_injective (x y : Z) :
  1 <= x <= 4 -> 1 <= y <= 4 -> num x = num y -> x = y.
Proof.
  intros Hx Hy.
  assert (Cx : x = 1 \/ x = 2 \/ x = 3 \/ x = 4) by lia.
  assert (Cy : y = 1 \/ y = 2 \/ y = 3 \/ y = 4) by lia.
  destruct Cx as [-> | [-> | [-> | ->]]];
    destruct Cy as [-> | [-> | [-> | ->]]];
    intro H; try reflexivity; discriminate H.
Qed.

(** X13.  As long as no answer is the name of an inherited property, the
    severity of both variants is the largest of the FEV1 band and the
    bands of the three answers, an answer outside its table counting 1.
    Hence the stage is the mildest only when nothing is found (FEV1 absent
    or at least 80 and every answer of band 1), and the most severe as soon
    as one finding is (FEV1 below 60 or an answer of band 4). *)
Theorem severity_is_max_with_default
    (fev1 : number) (daytime nighttime activity : string)
    (inh : string -> option AsthmaJs.checkbox)
    (freq_value : string -> option string)
    (inhalers : list string) (frequency : string) (p q : page) :
  inherited daytime = false -> inherited nighttime = false ->
  inherited activity = false ->
  let bd := band_or_default (spec_daytime_band daytime) in
  let bn := band_or_default (spec_nighttime_band nighttime) in
  let ba := band_or_default (spec_activity_band activity) in
  let s0 :=
    AsthmaJs.severity
      (fst (AsthmaJs.computeAsthmaStage
              (AsthmaJs.mkInput fev1 daytime nighttime activity inh freq_value)
              p)) in
  let s1 :=
    AsthmaPart001.severity
      (fst (AsthmaPart001.computeAsthmaStage
              (AsthmaPart001.mkInput fev1 daytime nighttime activity
                                     inhalers frequency) q)) in
  exists bf,
    spec_fev1_band fev1 bf
    /\ s0 = num (Z.max (Z.max bf bd) (Z.max bn ba))
    /\ s1 = s0
    /\ (s0 = num 1
        <-> (isNaN fev1 = true \/ greater_eq fev1 (num 80) = true)
            /\ bd = 1 /\ bn = 1 /\ ba = 1)
    /\ (s0 = num 4
        <-> less fev1 (num 60) = true \/ bd = 4 \/ bn = 4 \/ ba = 4).
Proof.
  intros Hd Hn Ha. cbv zeta.
  destruct (fev1_band_of_code fev1) as [bf [Hf [Huniq [Rf Ef]]]].
  destruct (daytime_default_band daytime Hd) as [Rd Ed].
  destruct (nighttime_default_band nighttime Hn) as [Rn En].
  destruct (activity_default_band activity Ha) as [Ra Ea].
  set (bd := band_or_default (spec_daytime_band daytime)) in *.
  set (bn := band_or_default (spec_nighttime_band nighttime)) in *.
  set (ba := band_or_default (spec_activity_band activity)) in *.
  assert (S : severity_of fev1 daytime nighttime activity
              = num (Z.max (Z.max bf bd) (Z.max bn ba))).
  { unfold severity_of. rewrite Ef, Ed, En, Ea.
    rewrite (Math_max_num bf bd Rf Rd).
    rewrite (Math_max_num (Z.max bf bd) bn) by lia.
    rewrite (Math_max_num (Z.max (Z.max bf bd) bn) ba) by lia.
    f_equal. lia. }
  rewrite (proj1 (asthma_js_result _ p)), (proj1 (asthma_part001_result _ q)).
  cbn [AsthmaJs.fev1 AsthmaJs.daytime AsthmaJs.nighttime AsthmaJs.activity
       AsthmaPart001.fev1 AsthmaPart001.daytime AsthmaPart001.nighttime
       AsthmaPart001.activity].
  rewrite S.
  assert (F1 : bf = 1 <-> isNaN fev1 = true \/ greater_eq fev1 (num 80) = true).
  { split.
    - intros ->. destruct Hf as [[_ H] | [[_ [_ H]] | [H _]]];
        [discriminate H | discriminate H | tauto].
    - intro H. symmetry. apply Huniq. right. right. split; [tauto | reflexivity]. }
  assert (F4 : bf = 4 <-> less fev1 (num 60) = true).
  { split.
    - intros ->. destruct Hf as [[H _] | [[_ [_ H]] | [_ H]]];
        [exact H | discriminate H | discriminate H].
    - intro H. symmetry. apply Huniq. left. split; [exact H | reflexivity]. }
  exists bf. split; [exact Hf|]. split; [reflexivity|]. split; [reflexivity|].
  split.
  - split.
    + intro E. apply num_injective in E; [|lia|lia].
      split; [apply F1; lia | lia].
    + intros [H1 [H2 [H3 H4]]]. apply F1 in H1. f_equal. lia.
  - split.
    + intro E. apply num_injective in E; [|lia|lia].
      destruct (Z.eq_dec bf 4) as [B | B]; [left; apply F4; exact B|].
      right. lia.
    + intro H. f_equal.
      destruct H as [H | H]; [apply F4 in H|]; lia.
Qed.

Lemma severity_is_max_with_default_witness :
  AsthmaJs.severity
    (fst (AsthmaJs.computeAsthmaStage
            (AsthmaJs.mkInput NaN "" "weekly" "some"
                              (fun _ => None) (fun _ => None))
            fresh_page))
  = num 3.
Proof.
  destruct (severity_is_max_with_default
              NaN "" "weekly" "some" (fun _ => None) (fun _ => None) [] ""
              fresh_page fresh_page eq_refl eq_refl eq_refl)
    as [bf [Hf [E _]]].
  cbv zeta in E. rewrite E.
  destruct Hf as [[H _] | [[H _] | [_ ->]]];
    [discriminate H | discriminate H | reflexivity].
Defined.

Lemma fev1_severity_antitone (fev1 fev1' : number) :
  greater_eq fev1 fev1' = true \/ isNaN fev1 = true ->
  greater_eq (fev1_severity fev1') (fev1_severity fev1) = true.
Proof.
  intro H.
  destruct (fev1_band_of_code fev1) as [b [Hb [Ub [Rb ->]]]].
  destruct (fev1_band_of_code fev1') as [b' [Hb' [_ [Rb' ->]]]].
  rewrite greater_eq_num by assumption. apply Z.leb_le.
  destruct H as [H | H].
  - destruct Hb' as [[_ ->] | [[G60 [_ ->]] | [[G80 | N] ->]]].
    + lia.
    + pose proof (greater_eq_trans _ _ _ H G60) as G.
      destruct Hb as [[L _] | [[_ [_ ->]] | [_ ->]]]; [|lia|lia].
      rewrite (less_not_greater_eq _ _ L) in G. discriminate.
    + pose proof (greater_eq_trans _ _ _ H G80) as G.
      rewrite <- (Ub 1); [lia|]. right. right. split; [tauto | reflexivity].
    + rewrite (greater_eq_not_NaN_right _ _ H) in N. discriminate.
  - rewrite <- (Ub 1); [lia|]. right. right. split; [tauto | reflexivity].
Qed.

(** X14.  A lower FEV1 never lowers the severity, and giving an FEV1 at all
    never lowers it below what it is with FEV1 absent: with the three
    answers fixed (none the name of an inherited property), the severity
    for [fev1'] is [>=] the severity for [fev1] whenever [fev1 >= fev1']
    or [fev1] is absent.  So in both variants. *)
Theorem lower_fev1_never_lower_severity
    (fev1 fev1' : number) (daytime nighttime activity : string)
    (inh : string -> option AsthmaJs.checkbox)
    (freq_value : string -> option string)
    (inhalers : list string) (frequency : string) (p q : page) :
  inherited daytime = false -> inherited nighttime = false ->
  inherited activity = false ->
  greater_eq fev1 fev1' = true \/ isNaN fev1 = true ->
  greater_eq
    (AsthmaJs.severity
       (fst (AsthmaJs.computeAsthmaStage
               (AsthmaJs.mkInput fev1' daytime nighttime activity inh freq_value)
               p)))
    (AsthmaJs.severity
       (fst (AsthmaJs.computeAsthmaStage
               (AsthmaJs.mkInput fev1 daytime nighttime activity inh freq_value)
               p))) = true
  /\ greater_eq
       (AsthmaPart001.severity
          (fst (AsthmaPart001.computeAsthmaStage
                  (AsthmaPart001.mkInput fev1' daytime nighttime activity
                                         inhalers frequency) q)))
       (AsthmaPart001.severity
          (fst (AsthmaPart001.computeAsthmaStage
                  (AsthmaPart001.mkInput fev1 daytime nighttime activity
                                         inhalers frequency) q))) = true.
Proof.
  intros Hd Hn Ha H.
  rewrite !(proj1 (asthma_js_result _ p)), !(proj1 (asthma_part001_result _ q)).
  cbn [AsthmaJs.fev1 AsthmaJs.daytime AsthmaJs.nighttime AsthmaJs.activity
       AsthmaPart001.fev1 AsthmaPart001.daytime AsthmaPart001.nighttime
       AsthmaPart001.activity].
  assert (M : greater_eq (severity_of fev1' daytime nighttime activity)
                         (severity_of fev1 daytime nighttime activity) = true).
  { destruct (daytime_default_band daytime Hd) as [Rd Ed].
    destruct (nighttime_default_band nighttime Hn) as [Rn En].
    destruct (activity_default_band activity Ha) as [Ra Ea].
    apply severity_monotone; try assumption.
    - apply fev1_severity_antitone. exact H.
    - rewrite Ed. cbn [ToNumber]. rewrite greater_eq_num by lia.
      apply Z.leb_refl.
    - rewrite En. cbn [ToNumber]. rewrite greater_eq_num by lia.
      apply Z.leb_refl.
    - rewrite Ea. cbn [ToNumber]. rewrite greater_eq_num by lia.
      apply Z.leb_refl. }
  split; exact M.
Qed.

Lemma lower_fev1_never_lower_severity_witness :
  greater_eq
    (AsthmaJs.severity
       (fst (AsthmaJs.computeAsthmaStage
               (AsthmaJs.mkInput (num 55) "3-6" "<=2" "none"
                                 (fun _ => None) (fun _ => None))
               fresh_page)))
    (AsthmaJs.severity
       (fst (AsthmaJs.computeAsthmaStage
               (AsthmaJs.mkInput (num 70) "3-6" "<=2" "none"
                                 (fun _ => None) (fun _ => None))
               fresh_page))) = true.
Proof.
  exact (proj1 (lower_fev1_never_lower_severity
                  (num 70) (num 55) "3-6" "<=2" "none"
                  (fun _ => None) (fun _ => None) [] "" fresh_page fresh_page
                  eq_refl eq_refl eq_refl (or_introl eq_refl))).
Defined.

Lemma no_number_among_items (n : number) (items : list AsthmaJs.item) :
  ~ In (ToString n)
       (flat_map
          (fun item =>
             let freqText :=
               if truthy (AsthmaJs.freq item)
               then (AsthmaJs.freq item ++ " times per week")%string
               else "frequency not specified" in
             [Lit "<li>"; Lit (AsthmaJs.name item); Lit ": "; Lit freqText;
              Lit "</li>"])
          items).
Proof.
  intro H. apply in_flat_map in H. destruct H as [item [_ H]].
  cbv zeta in H. simpl in H.
  repeat (destruct H as [H | H]; [discriminate H|]). exact H.
Qed.

(** X15.  The report shows the FEV1 only when one was given: the number printed
    in the report of either variant is [fev1], and it is there exactly
    when [fev1] is not NaN; an absent FEV1 leaves no trace in the report. *)
Theorem fev1_line_only_when_given
    (i : AsthmaJs.input) (i' : AsthmaPart001.input) (p : page) (n : number) :
  (In (ToString n) (AsthmaJs.resultHtml (fst (AsthmaJs.computeAsthmaStage i p)))
   <-> n = AsthmaJs.fev1 i /\ isNaN (AsthmaJs.fev1 i) = false)
  /\ (In (ToString n)
         (AsthmaPart001.resultHtml (fst (AsthmaPart001.computeAsthmaStage i' p)))
      <-> n = AsthmaPart001.fev1 i' /\ isNaN (AsthmaPart001.fev1 i') = false).
Proof.
  split.
  - unfold AsthmaJs.computeAsthmaStage. cbv zeta.
    match goal with
    | |- context [let '(_, _) := ?E in _] => destruct E as [nm ds]
    end.
    cbn [fst AsthmaJs.resultHtml].
    rewrite !in_app_iff.
    split.
    + intros [[[[[H | H] | H] | H] | H] | H].
      * simpl in H. destruct H as [H | []]. discriminate H.
      * simpl in H. repeat (destruct H as [H | H]; [discriminate H|]).
        destruct H.
      * simpl in H. repeat (destruct H as [H | H]; [discriminate H|]).
        destruct H.
      * destruct (isNaN (AsthmaJs.fev1 i)); simpl in H; [destruct H|].
        destruct H as [H | [H | [H | []]]]; try discriminate H.
        injection H as <-. split; reflexivity.
      * exfalso.
        match type of H with
        | In _ (if ?c then _ else _) => destruct c
        end.
        -- rewrite !in_app_iff in H. destruct H as [H | [H | H]].
           ++ simpl in H. destruct H as [H | []]. discriminate H.
           ++ exact (no_number_among_items n _ H).
           ++ simpl in H. destruct H as [H | []]. discriminate H.
        -- simpl in H. destruct H as [H | []]. discriminate H.
      * simpl in H. destruct H as [H | []]. discriminate H.
    + intros [-> Hn]. left. left. right. rewrite Hn. simpl. tauto.
  - unfold AsthmaPart001.computeAsthmaStage. cbv zeta.
    match goal with
    | |- context [let '(_, _) := ?E in _] => destruct E as [nm ds]
    end.
    cbn [fst AsthmaPart001.resultHtml].
    rewrite !in_app_iff.
    split.
    + intros [[[[[H | H] | H] | H] | H] | H].
      * simpl in H. destruct H as [H | []]. discriminate H.
      * simpl in H. repeat (destruct H as [H | H]; [discriminate H|]).
        destruct H.
      * simpl in H. repeat (destruct H as [H | H]; [discriminate H|]).
        destruct H.
      * destruct (isNaN (AsthmaPart001.fev1 i')); simpl in H; [destruct H|].
        destruct H as [H | [H | [H | []]]]; try discriminate H.
        injection H as <-. split; reflexivity.
      * simpl in H. repeat (destruct H as [H | H]; [discriminate H|]).
        destruct H.
      * destruct (truthy (AsthmaPart001.frequency i')); simpl in H;
          [|destruct H].
        repeat (destruct H as [H | H]; [discriminate H|]). destruct H.
    + intros [-> Hn]. left. left. right. rewrite Hn. simpl. tauto.
Qed.

End AsthmaFurther.
